(** * django_q.conf: configuration resolution and capability fallbacks

    A shallow embedding of [src/django_q/conf.py].  The module computes the
    class attributes of [Conf] once, when it is imported: it reads the
    optional [Q_CLUSTER] mapping and the secret key from the Django settings,
    probes the platform (processor count, queue size support, signal names)
    and then offers [get_redis_client] and [get_ppid].

    Python values are an inductive type, a dict with string keys is a
    [gmap string pyval], an exception is a constructor of [exn], and a
    statement that may raise is a computation in the [result] monad. *)

From Stdlib Require Import ZArith String Ascii List Lia DecimalString.
From stdpp Require Import base option gmap strings list.

#[local] Set Warnings "-register-all".
#[local] Open Scope Z_scope.

(** ** Runtime values, truthiness and exceptions *)

Module Py.

(** The values that the settings mapping and the probed objects hold.
    [PObj] is any other object (a function, a handler, a class); it carries
    its identity and the attribute table that [dir] and [getattr] see. *)
Inductive pyval : Type :=
| PNone
| PBool (b : bool)
| PInt (z : Z)
| PStr (s : string)
| PDict (d : gmap string pyval)
| PObj (id : positive) (attrs : list (string * pyval)).

(** [bool(v)]: what [if v], [not v] and [v or w] test. *)
Definition truthy (v : pyval) : bool :=
  match v with
  | PNone => false
  | PBool b => b
  | PInt z => negb (z =? 0)
  | PStr s => negb (String.eqb s "")
  | PDict d => negb (bool_decide (d = ∅))
  | PObj _ _ => true
  end.

(** [a or b] *)
Definition py_or (a b : pyval) : pyval := if truthy a then a else b.

(** [d.get(key, default)] *)
Definition dict_get (d : gmap string pyval) (key : string) (dflt : pyval) : pyval :=
  default dflt (d !! key).

Inductive exn : Type :=
| AttributeError
| NotImplementedError
| ImportError
| NameError
| TypeError
| OSError (msg : string)
| OtherError (cls : string).

Definition is_AttributeError (e : exn) : bool :=
  match e with AttributeError => true | _ => false end.
Definition is_NotImplementedError (e : exn) : bool :=
  match e with NotImplementedError => true | _ => false end.

(** The outcome of a statement: a value, or a raised exception. *)
Inductive result (A : Type) : Type :=
| Ok (a : A)
| Raise (e : exn).
Arguments Ok {A} a.
Arguments Raise {A} e.

#[global] Instance result_ret : MRet result := @Ok.
#[global] Instance result_bind : MBind result := λ A B f m,
  match m with Ok a => f a | Raise e => Raise e end.
#[global] Instance result_fmap : FMap result := λ A B f m,
  match m with Ok a => Ok (f a) | Raise e => Raise e end.

(** [try: body / except <class>: handler]; an exception of another class
    goes on to the caller. *)
Definition try_except {A} (body : result A) (caught : exn → bool)
    (handler : result A) : result A :=
  match body with
  | Ok a => Ok a
  | Raise e => if caught e then handler else Raise e
  end.

(** [s.startswith(p)] and [c in s] for a one-character [c]. *)
Definition startswith (s p : string) : bool := String.prefix p s.

Fixpoint contains_char (c : ascii) (s : string) : bool :=
  match s with
  | EmptyString => false
  | String a s' => if Ascii.eqb a c then true else contains_char c s'
  end.

(** [str(v)] of the scalar values.  The text of a dict or of another object
    is the runtime's business and comes with the platform. *)
Definition str_of_int (z : Z) : string := NilZero.string_of_int (Z.to_int z).

Definition py_str (object_str : pyval → string) (v : pyval) : string :=
  match v with
  | PNone => "None"
  | PBool true => "True"
  | PBool false => "False"
  | PInt z => str_of_int z
  | PStr s => s
  | _ => object_str v
  end.

(** Keys of a dict compare by value for numbers and strings ([True == 1]),
    by identity for other objects; a dict is not hashable. *)
Definition py_num (v : pyval) : option Z :=
  match v with
  | PBool b => Some (Z.b2z b)
  | PInt z => Some z
  | _ => None
  end.

Definition key_eqb (a b : pyval) : bool :=
  match a, b with
  | PNone, PNone => true
  | PStr s, PStr t => String.eqb s t
  | PObj i _, PObj j _ => Pos.eqb i j
  | _, _ =>
      match py_num a, py_num b with
      | Some x, Some y => x =? y
      | _, _ => false
      end
  end.

Definition hashable (v : pyval) : bool :=
  match v with PDict _ => false | _ => true end.

(** A dict whose keys are values: its items in insertion order. *)
Definition vdict (V : Type) : Type := list (pyval * V).

(** [d[k] = v]: an equal key keeps its place and takes the new value. *)
Fixpoint vdict_setitem {V} (d : vdict V) (k : pyval) (v : V) : vdict V :=
  match d with
  | [] => [(k, v)]
  | (k', v') :: d' =>
      if key_eqb k' k then (k', v) :: d' else (k', v') :: vdict_setitem d' k v
  end.

(** [d.get(k)] *)
Fixpoint vdict_get {V} (d : vdict V) (k : pyval) : option V :=
  match d with
  | [] => None
  | (k', v') :: d' => if key_eqb k' k then Some v' else vdict_get d' k
  end.

(** [dir(o)] and [getattr(o, n)] on an attribute table. *)
Definition py_dir (o : list (string * pyval)) : list string := o.*1.

Fixpoint attr_lookup (o : list (string * pyval)) (n : string) : option pyval :=
  match o with
  | [] => None
  | (m, v) :: o' => if String.eqb m n then Some v else attr_lookup o' n
  end.

Definition getattr (o : list (string * pyval)) (n : string) : result pyval :=
  match attr_lookup o n with
  | Some v => Ok v
  | None => Raise AttributeError
  end.

End Py.
Export Py.

(** ** The host: Django settings and the platform

    Everything the module reads from outside itself.  [settings.X] is an
    attribute access that may raise; Django raises [AttributeError] for a
    setting that is not defined. *)

Record Settings : Type := {
  settings_Q_CLUSTER : result (gmap string pyval);
  settings_SECRET_KEY : result pyval
}.

(** The optional [psutil] module: [psutil.cpu_count()] is an integer or
    [None]; [psutil.Process(pid).ppid()] is the parent of [pid]. *)
Record PsutilModule : Type := {
  psutil_cpu_count : option Z;
  psutil_Process_ppid : Z → Z
}.

Record Platform : Type := {
  (** [multiprocessing.cpu_count()] *)
  cpu_count : result Z;
  (** the global [psutil] after the guarded import: [None] when
      [import psutil] raised [ImportError] *)
  psutil : option PsutilModule;
  (** [Queue().qsize()] on a queue that was just created *)
  Queue_qsize : result Z;
  (** the names that the module [signal] defines, with their values *)
  signal_module : list (string * pyval);
  (** the function [signal.signal], as the attribute table of the object *)
  signal_signal : list (string * pyval);
  (** [os.getppid()], [None] when [os] has no attribute [getppid] *)
  os_getppid : option Z;
  (** [os.getpid()] *)
  os_getpid : Z;
  (** whether [import django_redis] finds the module *)
  django_redis_importable : bool;
  (** [str(v)] for a dict or another object *)
  object_str : pyval → string
}.

(** ** The class [Conf] *)

(** The class attributes.  [conf] is the mapping the others are read from;
    the five status labels ([STARTING] ... [STOPPING]) are lazy translation
    proxies that hold no configuration and are left out. *)
Record Conf : Type := mkConf {
  conf : gmap string pyval;
  REDIS : pyval;
  DJANGO_REDIS : pyval;
  PREFIX : pyval;
  LOG_LEVEL : pyval;
  SAVE_LIMIT : pyval;
  QUEUE_LIMIT : pyval;
  WORKERS : pyval;
  COMPRESSED : pyval;
  RECYCLE : pyval;
  TIMEOUT : pyval;
  LABEL : pyval;
  CPU_AFFINITY : pyval;
  SYNC : pyval;
  CATCH_UP : pyval;
  SECRET_KEY : pyval;
  Q_LIST : string;
  Q_STAT : string;
  QSIZE : bool;
  SIGNAL_NAMES : vdict string;
  TESTING : pyval
}.

(** [from signal import signal]: the name [signal] is the function. *)
Definition signal (h : Platform) : list (string * pyval) := signal_signal h.

(** Lines 24-27: the settings mapping, empty when the setting is missing. *)
Definition load_conf (settings : Settings) : result (gmap string pyval) :=
  try_except (settings_Q_CLUSTER settings) is_AttributeError (Ok ∅).

(** Lines 50-61: the number of workers. *)
Definition resolve_WORKERS (conf : gmap string pyval) (h : Platform)
    : result pyval :=
  let WORKERS := dict_get conf "workers" (PBool false) in
  if negb (truthy WORKERS) then
    try_except (PInt <$> cpu_count h) is_NotImplementedError
      (match psutil h with
       | Some p => Ok (py_or (from_option PInt PNone (psutil_cpu_count p)) (PInt 4))
       | None => Ok (PInt 4)
       end)
  else Ok WORKERS.

(** Lines 90 and 92: ['django_q:{}:q'.format(PREFIX)] and the stats key. *)
Definition format_Q_LIST (h : Platform) (PREFIX : pyval) : string :=
  "django_q:" +:+ py_str (object_str h) PREFIX +:+ ":q".

Definition format_Q_STAT (h : Platform) (PREFIX : pyval) : string :=
  "django_q:" +:+ py_str (object_str h) PREFIX +:+ ":cluster".

(** Lines 95-98: does the platform implement [qsize]? *)
Definition probe_QSIZE (h : Platform) : result bool :=
  try_except ((λ n, n =? 0) <$> Queue_qsize h) is_NotImplementedError (Ok false).

(** Line 101: the dict comprehension over [dir(signal)]. *)
Definition is_signal_name (n : string) : bool :=
  startswith n "SIG" && negb (contains_char "_" n).

Fixpoint collect_signal_names (o : list (string * pyval)) (names : list string)
    (acc : vdict string) : result (vdict string) :=
  match names with
  | [] => Ok acc
  | n :: rest =>
      if is_signal_name n then
        k ← getattr o n;
        if hashable k then collect_signal_names o rest (vdict_setitem acc k n)
        else Raise TypeError
      else collect_signal_names o rest acc
  end.

Definition build_SIGNAL_NAMES (o : list (string * pyval)) : result (vdict string) :=
  collect_signal_names o (py_dir o) [].

(** The class body, statement by statement. *)
Definition Conf_class (settings : Settings) (h : Platform) : result Conf :=
  conf ← load_conf settings;
  let REDIS := dict_get conf "redis" (PDict ∅) in
  let DJANGO_REDIS := dict_get conf "django_redis" PNone in
  let PREFIX := dict_get conf "name" (PStr "default") in
  let LOG_LEVEL := dict_get conf "log_level" (PStr "INFO") in
  let SAVE_LIMIT := dict_get conf "save_limit" (PInt 250) in
  let QUEUE_LIMIT := dict_get conf "queue_limit" PNone in
  WORKERS ← resolve_WORKERS conf h;
  let COMPRESSED := dict_get conf "compress" (PBool false) in
  let RECYCLE := dict_get conf "recycle" (PInt 500) in
  let TIMEOUT := dict_get conf "timeout" PNone in
  let LABEL := dict_get conf "label" (PStr "Django Q") in
  let CPU_AFFINITY := dict_get conf "cpu_affinity" (PInt 0) in
  let SYNC := dict_get conf "sync" (PBool false) in
  let CATCH_UP := dict_get conf "catch_up" (PBool true) in
  SECRET_KEY ← settings_SECRET_KEY settings;
  let Q_LIST := format_Q_LIST h PREFIX in
  let Q_STAT := format_Q_STAT h PREFIX in
  QSIZE ← probe_QSIZE h;
  SIGNAL_NAMES ← build_SIGNAL_NAMES (signal h);
  let TESTING := dict_get conf "testing" (PBool false) in
  Ok (mkConf conf REDIS DJANGO_REDIS PREFIX LOG_LEVEL SAVE_LIMIT QUEUE_LIMIT
        WORKERS COMPRESSED RECYCLE TIMEOUT LABEL CPU_AFFINITY SYNC CATCH_UP
        SECRET_KEY Q_LIST Q_STAT QSIZE SIGNAL_NAMES TESTING).

(** ** The redis client *)

(** A client is known by the way it was made: [redis.StrictRedis] called with keyword arguments,
    or [django_redis.get_redis_connection(alias)]. *)
Inductive client : Type :=
| StrictRedis (kwargs : gmap string pyval)
| get_redis_connection (alias : pyval).

(** Lines 128-132: the global [django_redis] is bound only when
    [Conf.DJANGO_REDIS] is truthy: to the module, or to [None] when the
    import fails. *)
Inductive binding : Type :=
| Unbound
| BoundNone
| BoundModule.

Definition django_redis (c : Conf) (h : Platform) : binding :=
  if truthy (DJANGO_REDIS c) then
    if django_redis_importable h then BoundModule else BoundNone
  else Unbound.

(** Reading a global: [NameError] for a name that was never bound. *)
Definition read_global (b : binding) : result bool :=
  match b with
  | Unbound => Raise NameError
  | BoundNone => Ok false
  | BoundModule => Ok true
  end.

(** A call that unpacks [v] into keyword arguments: [v] has to be a mapping. *)
Definition call_StrictRedis (v : pyval) : result client :=
  match v with
  | PDict kwargs => Ok (StrictRedis kwargs)
  | _ => Raise TypeError
  end.

(** Lines 135-142. *)
Definition get_redis_client (c : Conf) (h : Platform) : result client :=
  use_django_redis ←
    (if truthy (DJANGO_REDIS c) then read_global (django_redis c h) else Ok false);
  if (use_django_redis : bool) then Ok (get_redis_connection (DJANGO_REDIS c))
  else call_StrictRedis (REDIS c).

(** ** The parent process id *)

Definition get_ppid_unsupported : string :=
  "Your OS does not support `os.getppid`. Please install `psutil` as an alternative provider.".

(** Lines 150-156. *)
Definition get_ppid (h : Platform) : result Z :=
  match os_getppid h with
  | Some ppid => Ok ppid
  | None =>
      match psutil h with
      | Some p => Ok (psutil_Process_ppid p (os_getpid h))
      | None => Raise (OSError get_ppid_unsupported)
      end
  end.

(** ** Reading the class body as a whole *)

(** The five statements of the class body that may raise, and the record
    they build when none does. *)
Definition assemble (h : Platform) (cf : gmap string pyval) (w k : pyval)
    (q : bool) (sn : vdict string) : Conf :=
  mkConf cf (dict_get cf "redis" (PDict ∅)) (dict_get cf "django_redis" PNone)
    (dict_get cf "name" (PStr "default")) (dict_get cf "log_level" (PStr "INFO"))
    (dict_get cf "save_limit" (PInt 250)) (dict_get cf "queue_limit" PNone)
    w (dict_get cf "compress" (PBool false)) (dict_get cf "recycle" (PInt 500))
    (dict_get cf "timeout" PNone) (dict_get cf "label" (PStr "Django Q"))
    (dict_get cf "cpu_affinity" (PInt 0)) (dict_get cf "sync" (PBool false))
    (dict_get cf "catch_up" (PBool true)) k
    (format_Q_LIST h (dict_get cf "name" (PStr "default")))
    (format_Q_STAT h (dict_get cf "name" (PStr "default")))
    q sn (dict_get cf "testing" (PBool false)).

(** The keys that the class reads from the settings mapping. *)
Definition documented_keys : list string :=
  [ "redis"; "django_redis"; "name"; "log_level"; "save_limit"; "queue_limit";
    "workers"; "compress"; "recycle"; "timeout"; "label"; "cpu_affinity";
    "sync"; "catch_up"; "testing" ].

(** Two resolved configurations with the same value in every attribute
    other than the raw mapping [conf]. *)
Definition same_snapshot (a b : Conf) : Prop :=
  REDIS a = REDIS b ∧ DJANGO_REDIS a = DJANGO_REDIS b ∧ PREFIX a = PREFIX b
  ∧ LOG_LEVEL a = LOG_LEVEL b ∧ SAVE_LIMIT a = SAVE_LIMIT b
  ∧ QUEUE_LIMIT a = QUEUE_LIMIT b ∧ WORKERS a = WORKERS b
  ∧ COMPRESSED a = COMPRESSED b ∧ RECYCLE a = RECYCLE b ∧ TIMEOUT a = TIMEOUT b
  ∧ LABEL a = LABEL b ∧ CPU_AFFINITY a = CPU_AFFINITY b ∧ SYNC a = SYNC b
  ∧ CATCH_UP a = CATCH_UP b ∧ SECRET_KEY a = SECRET_KEY b ∧ Q_LIST a = Q_LIST b
  ∧ Q_STAT a = Q_STAT b ∧ QSIZE a = QSIZE b ∧ SIGNAL_NAMES a = SIGNAL_NAMES b
  ∧ TESTING a = TESTING b.

Definition same_outcome (r1 r2 : result Conf) : Prop :=
  match r1, r2 with
  | Ok a, Ok b => same_snapshot a b
  | Raise e1, Raise e2 => e1 = e2
  | _, _ => False
  end.

(** ** The logger *)

(** What the module [logging] is to this file: the names it defines (the
    levels [INFO], [DEBUG], ... among them) and the check that
    [Logger.setLevel] makes on its argument before it stores it. *)
Record Logging : Type := {
  logging_names : list (string * pyval);
  Logger_checkLevel : pyval → result pyval
}.

Record Formatter : Type := {
  formatter_fmt : string;
  formatter_datefmt : string
}.

Record Handler : Type := {
  handler_class : string;
  handler_formatter : option Formatter
}.

(** A logger, as far as this file touches it.  Loggers live in the table
    of the logging manager, by name: [logging.getLogger(name)] gives the same
    object at every call, so the table is the state that is passed along. *)
Record Logger : Type := {
  logger_level : pyval;
  logger_handlers : list Handler
}.

(** A logger that [getLogger] makes: level [NOTSET], no handler. *)
Definition new_Logger : Logger :=
  {| logger_level := PInt 0; logger_handlers := [] |}.

(** [logging.getLogger(name)] *)
Definition getLogger (name : string) (loggers : gmap string Logger)
    : gmap string Logger * Logger :=
  match loggers !! name with
  | Some logger => (loggers, logger)
  | None => (<[name := new_Logger]> loggers, new_Logger)
  end.

(** [getattr(o, name)] with a computed name: the name has to be a string. *)
Definition getattr_value (o : list (string * pyval)) (name : pyval) : result pyval :=
  match name with
  | PStr n => getattr o n
  | _ => Raise TypeError
  end.

(** [logging.StreamHandler()], [handler.setFormatter(f)] and
    [logger.addHandler(handler)] for a handler that was just made (it is in
    no list yet). *)
Definition StreamHandler : Handler :=
  {| handler_class := "StreamHandler"; handler_formatter := None |}.

Definition setFormatter (handler : Handler) (f : Formatter) : Handler :=
  {| handler_class := handler_class handler; handler_formatter := Some f |}.

Definition addHandler (logger : Logger) (handler : Handler) : Logger :=
  {| logger_level := logger_level logger;
     logger_handlers := logger_handlers logger ++ [handler] |}.

Definition setLevel (logger : Logger) (level : pyval) : Logger :=
  {| logger_level := level; logger_handlers := logger_handlers logger |}.

(** Lines 115-124: the logger ['django-q'] gets a level and a stream handler,
    unless it has a handler already.  The result is the table of loggers
    afterwards, and whether the block raised. *)
Definition setup_logger (lib : Logging) (c : Conf) (loggers : gmap string Logger)
    : gmap string Logger * result unit :=
  let '(loggers, logger) := getLogger "django-q" loggers in
  match logger_handlers logger with
  | [] =>
      match (v ← getattr_value (logging_names lib) (LOG_LEVEL c);
             Logger_checkLevel lib v) with
      | Raise e => (loggers, Raise e)
      | Ok level =>
          let logger := setLevel logger level in
          let formatter :=
            {| formatter_fmt := "%(asctime)s [Q] %(levelname)s %(message)s";
               formatter_datefmt := "%H:%M:%S" |} in
          let handler := setFormatter StreamHandler formatter in
          let logger := addHandler logger handler in
          (<["django-q" := logger]> loggers, Ok ())
      end
  | _ :: _ => (loggers, Ok ())
  end.

(** ** The module, from top to bottom *)

(** What importing the module leaves behind: the class, the global
    [django_redis] and the global [redis_client] (line 146). *)
Record ConfModule : Type := {
  module_Conf : Conf;
  module_django_redis : binding;
  module_redis_client : client
}.

(** The statements of the module in their order: the class body, the logger,
    the guarded import of [django_redis], the client. *)
Definition import_module (settings : Settings) (h : Platform) (lib : Logging)
    (loggers : gmap string Logger) : gmap string Logger * result ConfModule :=
  match Conf_class settings h with
  | Raise e => (loggers, Raise e)
  | Ok c =>
      let '(loggers, r) := setup_logger lib c loggers in
      match r with
      | Raise e => (loggers, Raise e)
      | Ok _ =>
          (loggers,
           redis_client ← get_redis_client c h;
           Ok {| module_Conf := c;
                 module_django_redis := django_redis c h;
                 module_redis_client := redis_client |})
      end
  end.

(** The class of a key: two hashable values are the same key of a dict
    exactly when they have the same class. *)
Inductive key_class : Type :=
| KNone
| KNum (z : Z)
| KStr (s : string)
| KObj (id : positive).

Definition class_of_key (v : pyval) : option key_class :=
  match v with
  | PNone => Some KNone
  | PBool b => Some (KNum (Z.b2z b))
  | PInt z => Some (KNum z)
  | PStr s => Some (KStr s)
  | PDict _ => None
  | PObj i _ => Some (KObj i)
  end.

(** The last character of a string. *)
Fixpoint last_char (s : string) : option ascii :=
  match s with
  | EmptyString => None
  | String a EmptyString => Some a
  | String _ s' => last_char s'
  end.

(** ** The client libraries as they are called *)

(** The two calls that make a client, with their own outcome: each returns a
    client or raises what the library raises (an unknown keyword, an alias
    that the caches do not have). *)
Record RedisLibraries : Type := {
  redis_StrictRedis : gmap string pyval → result client;
  django_redis_get_redis_connection : pyval → result client
}.

(** Lines 135-142 over such libraries.  Unpacking [REDIS] into keyword
    arguments raises [TypeError] at the call when it is not a mapping. *)
Definition get_redis_client_with (libs : RedisLibraries) (c : Conf) (h : Platform)
    : result client :=
  use_django_redis ←
    (if truthy (DJANGO_REDIS c) then read_global (django_redis c h) else Ok false);
  if (use_django_redis : bool)
  then django_redis_get_redis_connection libs (DJANGO_REDIS c)
  else match REDIS c with
       | PDict kwargs => redis_StrictRedis libs kwargs
       | _ => Raise TypeError
       end.

(** ** Concrete hosts, for running the model *)

Module Hosts.

(** The attribute names of a built-in function object, as [dir] lists them. *)
Definition builtin_function_attrs (name : string) : list (string * pyval) :=
  [ ("__call__", PObj 101 []); ("__class__", PObj 102 []);
    ("__cmp__", PObj 103 []); ("__delattr__", PObj 104 []);
    ("__doc__", PStr "signal(sig, action) -> action");
    ("__eq__", PObj 105 []); ("__format__", PObj 106 []);
    ("__ge__", PObj 107 []); ("__getattribute__", PObj 108 []);
    ("__gt__", PObj 109 []); ("__hash__", PObj 110 []);
    ("__init__", PObj 111 []); ("__le__", PObj 112 []);
    ("__lt__", PObj 113 []); ("__module__", PStr "signal");
    ("__name__", PStr name); ("__ne__", PObj 114 []);
    ("__new__", PObj 115 []); ("__reduce__", PObj 116 []);
    ("__reduce_ex__", PObj 117 []); ("__repr__", PObj 118 []);
    ("__self__", PNone); ("__setattr__", PObj 119 []);
    ("__sizeof__", PObj 120 []); ("__str__", PObj 121 []);
    ("__subclasshook__", PObj 122 []) ].

(** The module [signal] on Linux, in the order of [dir]. *)
Definition linux_signal_module : list (string * pyval) :=
  [ ("ITIMER_REAL", PInt 0); ("NSIG", PInt 65);
    ("SIGABRT", PInt 6); ("SIGALRM", PInt 14); ("SIGHUP", PInt 1);
    ("SIGINT", PInt 2); ("SIGIOT", PInt 6); ("SIGKILL", PInt 9);
    ("SIGQUIT", PInt 3); ("SIGTERM", PInt 15);
    ("SIG_DFL", PInt 0); ("SIG_IGN", PInt 1);
    ("__name__", PStr "signal");
    ("alarm", PObj 201 (builtin_function_attrs "alarm"));
    ("getsignal", PObj 202 (builtin_function_attrs "getsignal"));
    ("signal", PObj 203 (builtin_function_attrs "signal")) ].

Definition a_psutil (count : option Z) : PsutilModule :=
  {| psutil_cpu_count := count; psutil_Process_ppid := λ _, 1 |}.

(** A Linux host, given the outcome of the three probes and the two
    optional facilities. *)
Definition linux (cpus : result Z) (ps : option PsutilModule) (qsize : result Z)
    (ppid : option Z) (has_django_redis : bool) : Platform :=
  {| cpu_count := cpus;
     psutil := ps;
     Queue_qsize := qsize;
     signal_module := linux_signal_module;
     signal_signal := builtin_function_attrs "signal";
     os_getppid := ppid;
     os_getpid := 4242;
     django_redis_importable := has_django_redis;
     object_str := λ _, "<object>" |}.

Definition plain_linux : Platform := linux (Ok 8) None (Ok 0) (Some 1) false.

Definition django_settings (overrides : result (gmap string pyval)) (secret : pyval)
    : Settings :=
  {| settings_Q_CLUSTER := overrides; settings_SECRET_KEY := Ok secret |}.

End Hosts.
Import Hosts.

Module LoggingHosts.

(** The module [logging] of the standard library: its levels, and some of
    its other names. *)
Definition level_names : list (string * pyval) :=
  [ ("CRITICAL", PInt 50); ("DEBUG", PInt 10); ("ERROR", PInt 40);
    ("FATAL", PInt 50); ("INFO", PInt 20); ("NOTSET", PInt 0);
    ("WARN", PInt 30); ("WARNING", PInt 30) ].

Definition std_logging_names : list (string * pyval) :=
  level_names ++
  [ ("__name__", PStr "logging"); ("debug", PObj 301 []); ("info", PObj 302 []);
    ("warning", PObj 303 []) ].

(** [logging._checkLevel]: an integer is a level, a string has to be the
    name of one, anything else is a [TypeError]. *)
Definition std_checkLevel (v : pyval) : result pyval :=
  match v with
  | PInt _ | PBool _ => Ok v
  | PStr n =>
      match attr_lookup level_names n with
      | Some l => Ok l
      | None => Raise (OtherError "ValueError")
      end
  | _ => Raise TypeError
  end.

Definition std_logging : Logging :=
  {| logging_names := std_logging_names; Logger_checkLevel := std_checkLevel |}.

(** A logger that the project has configured itself. *)
Definition configured_logger : Logger :=
  {| logger_level := PInt 10;
     logger_handlers := [ {| handler_class := "FileHandler";
                            handler_formatter := None |} ] |}.

End LoggingHosts.
Import LoggingHosts.

(** * Properties *)

(** Goals of the shape [∃ c, f input = Ok c ∧ P c] at a concrete input: run
    [f], then look at the result. *)
Ltac by_running := eexists; split; [vm_compute; reflexivity|].

(** ** Running the model *)

Example scenario_site2 :
  ∃ c, Conf_class
         (django_settings
            (Ok (<["name" := PStr "site2"]> (<["workers" := PInt 2]>
                   (<["save_limit" := PInt 0]> ∅)))) (PStr "s3cr3t"))
         plain_linux = Ok c
       ∧ PREFIX c = PStr "site2" ∧ WORKERS c = PInt 2 ∧ SAVE_LIMIT c = PInt 0
       ∧ Q_LIST c = "django_q:site2:q".
Proof. by_running. done. Qed.

Example signal_names_of_the_module :
  ∃ d, build_SIGNAL_NAMES linux_signal_module = Ok d
       ∧ vdict_get d (PInt 2) = Some "SIGINT"
       ∧ vdict_get d (PInt 15) = Some "SIGTERM"
       ∧ vdict_get d (PInt 6) = Some "SIGIOT"
       ∧ vdict_get d (PInt 0) = None.
Proof. by_running. done. Qed.

(** ** Shared lemmas *)

Lemma dict_get_None (d : gmap string pyval) k dflt :
  d !! k = None → dict_get d k dflt = dflt.
Proof. unfold dict_get. by intros ->. Qed.

Lemma dict_get_Some (d : gmap string pyval) k dflt v :
  d !! k = Some v → dict_get d k dflt = v.
Proof. unfold dict_get. by intros ->. Qed.

Lemma dict_get_agree (d1 d2 : gmap string pyval) k dflt :
  d1 !! k = d2 !! k → dict_get d1 k dflt = dict_get d2 k dflt.
Proof. unfold dict_get. by intros ->. Qed.

Lemma Conf_class_steps settings h :
  Conf_class settings h =
    cf ← load_conf settings;
    w ← resolve_WORKERS cf h;
    k ← settings_SECRET_KEY settings;
    q ← probe_QSIZE h;
    sn ← build_SIGNAL_NAMES (signal h);
    Ok (assemble h cf w k q sn).
Proof. reflexivity. Qed.

Lemma Conf_class_Ok settings h c :
  Conf_class settings h = Ok c ↔
  ∃ cf w k q sn,
    load_conf settings = Ok cf ∧ resolve_WORKERS cf h = Ok w ∧
    settings_SECRET_KEY settings = Ok k ∧ probe_QSIZE h = Ok q ∧
    build_SIGNAL_NAMES (signal h) = Ok sn ∧ c = assemble h cf w k q sn.
Proof.
  rewrite Conf_class_steps. split.
  - destruct (load_conf settings) as [cf|] eqn:E1; [|done]. cbn.
    destruct (resolve_WORKERS cf h) as [w|] eqn:E2; [|done]. cbn.
    destruct (settings_SECRET_KEY settings) as [k|] eqn:E3; [|done]. cbn.
    destruct (probe_QSIZE h) as [q|] eqn:E4; [|done]. cbn.
    destruct (build_SIGNAL_NAMES (signal h)) as [sn|] eqn:E5; [|done]. cbn.
    intros [= <-]. by exists cf, w, k, q, sn.
  - intros (cf & w & k & q & sn & -> & E2 & -> & -> & -> & ->). cbn.
    by rewrite E2.
Qed.

(** ** The number of workers *)

Lemma Conf_class_WORKERS settings h c :
  Conf_class settings h = Ok c →
  load_conf settings = Ok (conf c) ∧ resolve_WORKERS (conf c) h = Ok (WORKERS c).
Proof.
  intros (cf & w & k & q & sn & E1 & E2 & _ & _ & _ & ->)%Conf_class_Ok.
  by split.
Qed.

Lemma resolve_WORKERS_falsy cf h :
  truthy (dict_get cf "workers" (PBool false)) = false →
  resolve_WORKERS cf h =
    try_except (PInt <$> cpu_count h) is_NotImplementedError
      (match psutil h with
       | Some p => Ok (py_or (from_option PInt PNone (psutil_cpu_count p)) (PInt 4))
       | None => Ok (PInt 4)
       end).
Proof. unfold resolve_WORKERS. by intros ->. Qed.

(** C1. The worker count follows the fallback chain in strict priority
    order: a truthy ['workers'] override is the result whatever the platform
    reports; otherwise the result is the count that [cpu_count()] returns;
    when [cpu_count()] raises [NotImplementedError] it is the count of
    [psutil], if the library is there and its count is neither zero nor
    [None]; and otherwise it is 4.  The [WORKERS] attribute of a resolved
    [Conf] is the result of this chain on the settings mapping. *)
Theorem WORKERS_fallback_chain (cf : gmap string pyval) (h : Platform) :
  (truthy (dict_get cf "workers" (PBool false)) = true →
     resolve_WORKERS cf h = Ok (dict_get cf "workers" (PBool false)))
  ∧ (truthy (dict_get cf "workers" (PBool false)) = false →
     ∀ n, cpu_count h = Ok n → resolve_WORKERS cf h = Ok (PInt n))
  ∧ (truthy (dict_get cf "workers" (PBool false)) = false →
     cpu_count h = Raise NotImplementedError →
     ∀ p n, psutil h = Some p → psutil_cpu_count p = Some n → n ≠ 0 →
     resolve_WORKERS cf h = Ok (PInt n))
  ∧ (truthy (dict_get cf "workers" (PBool false)) = false →
     cpu_count h = Raise NotImplementedError →
     (psutil h = None
      ∨ ∃ p, psutil h = Some p
             ∧ (psutil_cpu_count p = None ∨ psutil_cpu_count p = Some 0)) →
     resolve_WORKERS cf h = Ok (PInt 4))
  ∧ (∀ settings c, Conf_class settings h = Ok c →
     load_conf settings = Ok (conf c)
     ∧ resolve_WORKERS (conf c) h = Ok (WORKERS c)).
Proof.
  split; [|split; [|split; [|split]]].
  - unfold resolve_WORKERS. by intros ->.
  - intros Hw n Hn. rewrite resolve_WORKERS_falsy by done. by rewrite Hn.
  - intros Hw Hc p n Hp Hn Hz. rewrite resolve_WORKERS_falsy by done.
    rewrite Hc, Hp, Hn. cbn. unfold py_or. cbn.
    by destruct (Z.eqb_spec n 0).
  - intros Hw Hc Hp. rewrite resolve_WORKERS_falsy by done. rewrite Hc. cbn.
    destruct Hp as [-> | (p & -> & [-> | ->])]; done.
  - intros settings c. apply Conf_class_WORKERS.
Qed.

Lemma WORKERS_fallback_chain_witness :
  resolve_WORKERS (<["workers" := PInt 2]> ∅) plain_linux = Ok (PInt 2)
  ∧ resolve_WORKERS ∅ plain_linux = Ok (PInt 8)
  ∧ resolve_WORKERS ∅
      (linux (Raise NotImplementedError) (Some (a_psutil (Some 2))) (Ok 0) None false)
    = Ok (PInt 2)
  ∧ resolve_WORKERS (<["workers" := PInt 0]> ∅)
      (linux (Raise NotImplementedError) (Some (a_psutil (Some 0))) (Ok 0) None false)
    = Ok (PInt 4).
Proof.
  split; [|split; [|split]].
  - exact (proj1 (WORKERS_fallback_chain (<["workers" := PInt 2]> ∅) plain_linux)
             eq_refl).
  - exact (proj1 (proj2 (WORKERS_fallback_chain ∅ plain_linux)) eq_refl 8 eq_refl).
  - refine (proj1 (proj2 (proj2 (WORKERS_fallback_chain ∅
              (linux (Raise NotImplementedError) (Some (a_psutil (Some 2))) (Ok 0)
                 None false))))
              eq_refl eq_refl (a_psutil (Some 2)) 2 eq_refl eq_refl _).
    lia.
  - refine (proj1 (proj2 (proj2 (proj2 (WORKERS_fallback_chain
              (<["workers" := PInt 0]> ∅)
              (linux (Raise NotImplementedError) (Some (a_psutil (Some 0))) (Ok 0)
                 None false)))))
              eq_refl eq_refl _).
    right. exists (a_psutil (Some 0)). split; [reflexivity | by right].
Defined.

Lemma resolve_WORKERS_agree cf1 cf2 h :
  cf1 !! "workers" = cf2 !! "workers" →
  resolve_WORKERS cf1 h = resolve_WORKERS cf2 h.
Proof.
  intros H. unfold resolve_WORKERS.
  by rewrite (dict_get_agree cf1 cf2 "workers" (PBool false) H).
Qed.





(** C4, where it fails: a negative ['workers'] override is truthy, so it is
    the worker count. *)
Lemma negative_workers_override :
  ∃ c, Conf_class (django_settings (Ok (<["workers" := PInt (-3)]> ∅)) (PStr "s3cr3t"))
         plain_linux = Ok c
       ∧ WORKERS c = PInt (-3)
       ∧ ¬ ∃ n, WORKERS c = PInt n ∧ 1 ≤ n.
Proof.
  by_running. split; [done|].
  intros (n & [= <-] & Hn). lia.
Qed.

(** C4, as the code has it.  The worker count of a resolved [Conf] is an
    integer that is at least 1 whenever the ['workers'] override is absent,
    falsy, or itself an integer that is at least 1, on a platform whose
    probes report what they document: a processor count of at least 1 from
    [cpu_count()], and no negative count from [psutil].  A truthy override is
    stored as it is. *)
Theorem WORKERS_at_least_one (settings : Settings) (h : Platform) (c : Conf) :
  Conf_class settings h = Ok c →
  (truthy (dict_get (conf c) "workers" (PBool false)) = false
   ∨ ∃ n, dict_get (conf c) "workers" (PBool false) = PInt n ∧ 1 ≤ n) →
  (∀ n, cpu_count h = Ok n → 1 ≤ n) →
  (∀ p n, psutil h = Some p → psutil_cpu_count p = Some n → 0 ≤ n) →
  ∃ n, WORKERS c = PInt n ∧ 1 ≤ n.
Proof.
  intros [_ Hw]%Conf_class_WORKERS Hov Hcpu Hps.
  destruct Hov as [Hf | (n & Hn & Hge)].
  - rewrite resolve_WORKERS_falsy in Hw by done.
    destruct (cpu_count h) as [n|e] eqn:E; cbn in Hw.
    + injection Hw as <-. exists n. split; [done | by apply Hcpu].
    + destruct (is_NotImplementedError e); [|done].
      destruct (psutil h) as [p|] eqn:Ep; [|injection Hw as <-; by exists 4].
      destruct (psutil_cpu_count p) as [n|] eqn:En; cbn in Hw;
        [|injection Hw as <-; by exists 4].
      unfold py_or in Hw. cbn in Hw.
      destruct (Z.eqb_spec n 0) as [->|Hne]; cbn in Hw; injection Hw as <-.
      * by exists 4.
      * exists n. split; [done|]. specialize (Hps p n eq_refl En). lia.
  - unfold resolve_WORKERS in Hw. rewrite Hn in Hw. cbn in Hw.
    destruct (Z.eqb_spec n 0) as [E|_]; [lia|]. cbn in Hw.
    injection Hw as <-. by exists n.
Qed.

Lemma WORKERS_at_least_one_witness :
  ∃ c, Conf_class (django_settings (Ok (<["workers" := PInt 2]> ∅)) (PStr "s3cr3t"))
         (linux (Ok 8) (Some (a_psutil (Some 8))) (Ok 0) (Some 1) false) = Ok c
       ∧ ∃ n, WORKERS c = PInt n ∧ 1 ≤ n.
Proof.
  eexists. split; [vm_compute; reflexivity|].
  refine (WORKERS_at_least_one
            (django_settings (Ok (<["workers" := PInt 2]> ∅)) (PStr "s3cr3t"))
            (linux (Ok 8) (Some (a_psutil (Some 8))) (Ok 0) (Some 1) false) _
            eq_refl _ _ _).
  - right. exists 2. split; [reflexivity | lia].
  - intros n [= <-]. lia.
  - intros p n [= <-] [= <-]. lia.
Defined.

(** ** The secret key *)

(** C2, where it fails: an empty secret key is taken over like any other,
    and the resolution succeeds. *)
Lemma empty_secret_is_accepted :
  (∃ c, Conf_class (django_settings (Raise AttributeError) (PStr "")) plain_linux = Ok c
        ∧ SECRET_KEY c = PStr "")
  ∧ ∀ e, Conf_class (django_settings (Raise AttributeError) (PStr "")) plain_linux
         ≠ Raise e.
Proof.
  split; [by_running; done|].
  intros e. vm_compute. discriminate.
Qed.

(** C2, as the code has it.  [SECRET_KEY] is copied from the settings as it
    is; the class makes no test of its own on the value.  Whether resolution
    succeeds does not depend on the secret, empty or not; and when reading
    the secret from the settings raises (the check is Django's), that
    exception comes out of the resolution. *)
Theorem SECRET_KEY_copied_unchecked (overrides : result (gmap string pyval))
    (h : Platform) (k : pyval) :
  (∀ c, Conf_class {| settings_Q_CLUSTER := overrides;
                      settings_SECRET_KEY := Ok k |} h = Ok c →
        SECRET_KEY c = k)
  ∧ (∀ k',
       (∃ c, Conf_class {| settings_Q_CLUSTER := overrides;
                           settings_SECRET_KEY := Ok k |} h = Ok c)
       ↔ (∃ c', Conf_class {| settings_Q_CLUSTER := overrides;
                              settings_SECRET_KEY := Ok k' |} h = Ok c'))
  ∧ (∀ e cf w,
       load_conf {| settings_Q_CLUSTER := overrides;
                    settings_SECRET_KEY := Raise e |} = Ok cf →
       resolve_WORKERS cf h = Ok w →
       Conf_class {| settings_Q_CLUSTER := overrides;
                     settings_SECRET_KEY := Raise e |} h = Raise e).
Proof.
  split; [|split].
  - intros c (cf & w & k0 & q & sn & _ & _ & Hk & _ & _ & ->)%Conf_class_Ok.
    cbn in Hk. by injection Hk as <-.
  - assert (Hone : ∀ k1 k2,
      (∃ c, Conf_class {| settings_Q_CLUSTER := overrides;
                          settings_SECRET_KEY := Ok k1 |} h = Ok c) →
      ∃ c', Conf_class {| settings_Q_CLUSTER := overrides;
                          settings_SECRET_KEY := Ok k2 |} h = Ok c').
    { intros k1 k2 (c & (cf & w & k0 & q & sn & E1 & E2 & _ & E4 & E5 & _)%Conf_class_Ok).
      exists (assemble h cf w k2 q sn). apply Conf_class_Ok.
      by exists cf, w, k2, q, sn. }
    intros k'. split; apply Hone.
  - intros e cf w Hcf Hw. rewrite Conf_class_steps.
    unfold load_conf in *. cbn in *. rewrite Hcf. cbn. by rewrite Hw.
Qed.

Lemma SECRET_KEY_copied_unchecked_witness :
  ∃ c, Conf_class (django_settings (Ok ∅) (PStr "s3cr3t")) plain_linux = Ok c
       ∧ SECRET_KEY c = PStr "s3cr3t".
Proof.
  eexists. split; [vm_compute; reflexivity|].
  refine (proj1 (SECRET_KEY_copied_unchecked (Ok ∅) plain_linux (PStr "s3cr3t")) _ _).
  vm_compute. reflexivity.
Defined.

(** ** Queue size support *)

(** C6, where it fails: a probe that raises [OSError], as [Queue()] does
    where the platform has no semaphores, stops the resolution. *)
Lemma QSIZE_probe_OSError_propagates :
  Conf_class (django_settings (Raise AttributeError) (PStr "s3cr3t"))
    (linux (Ok 8) None (Raise (OSError "[Errno 38] Function not implemented"))
       (Some 1) false)
  = Raise (OSError "[Errno 38] Function not implemented").
Proof. vm_compute. reflexivity. Qed.

(** C6, as the code has it.  When the other statements of the class body
    succeed, a probe that returns a size or raises [NotImplementedError]
    never stops the resolution: [QSIZE] is true when the size read is 0 and
    false when the platform does not implement the call (or the size is not
    0).  Only [NotImplementedError] is caught: any other exception raised by
    the probe comes out of the resolution. *)
Theorem QSIZE_probe_outcomes (settings : Settings) (h : Platform)
    (cf : gmap string pyval) (w k : pyval) :
  load_conf settings = Ok cf →
  resolve_WORKERS cf h = Ok w →
  settings_SECRET_KEY settings = Ok k →
  (∀ sn, build_SIGNAL_NAMES (signal h) = Ok sn →
     (Queue_qsize h = Ok 0 →
        ∃ c, Conf_class settings h = Ok c ∧ QSIZE c = true)
     ∧ (∀ n, Queue_qsize h = Ok n → n ≠ 0 →
        ∃ c, Conf_class settings h = Ok c ∧ QSIZE c = false)
     ∧ (Queue_qsize h = Raise NotImplementedError →
        ∃ c, Conf_class settings h = Ok c ∧ QSIZE c = false))
  ∧ (∀ e, Queue_qsize h = Raise e → e ≠ NotImplementedError →
       Conf_class settings h = Raise e).
Proof.
  intros Hcf Hw Hk. rewrite Conf_class_steps, Hcf. cbn. rewrite Hw. cbn.
  rewrite Hk. cbn. unfold probe_QSIZE. split.
  - intros sn Hsn. rewrite Hsn. split; [|split].
    + intros ->. cbn. by eexists.
    + intros n -> Hn. cbn. destruct (Z.eqb_spec n 0); [done|]. by eexists.
    + intros ->. cbn. by eexists.
  - intros e -> He. cbn. by destruct e.
Qed.

Lemma QSIZE_probe_outcomes_witness :
  (∃ c, Conf_class (django_settings (Ok ∅) (PStr "s3cr3t"))
          (linux (Ok 8) None (Raise NotImplementedError) (Some 1) false) = Ok c
        ∧ QSIZE c = false)
  ∧ Conf_class (django_settings (Ok ∅) (PStr "s3cr3t"))
      (linux (Ok 8) None (Raise ImportError) (Some 1) false) = Raise ImportError.
Proof.
  split.
  - refine (proj2 (proj2 (proj1 (QSIZE_probe_outcomes
              (django_settings (Ok ∅) (PStr "s3cr3t"))
              (linux (Ok 8) None (Raise NotImplementedError) (Some 1) false)
              ∅ (PInt 8) (PStr "s3cr3t") eq_refl eq_refl eq_refl) [] eq_refl)) eq_refl).
  - refine (proj2 (QSIZE_probe_outcomes
              (django_settings (Ok ∅) (PStr "s3cr3t"))
              (linux (Ok 8) None (Raise ImportError) (Some 1) false)
              ∅ (PInt 8) (PStr "s3cr3t") eq_refl eq_refl eq_refl)
              ImportError eq_refl _).
    discriminate.
Defined.

(** ** The redis keys *)

(** C7. For every cluster name the list key is ["django_q:<name>:q"] and the
    stats key is ["django_q:<name>:cluster"], with the fixed prefix
    ["django_q"].  Settings whose mapping gives ['name'] as the string [name]
    resolve (when the other statements of the class body succeed) to a
    configuration with exactly these two keys; settings without ['name'], or
    without the [Q_CLUSTER] setting at all, resolve to the keys of the name
    ["default"].  In every resolved configuration the name is the one the
    settings give, the keys are those of the name, and two resolutions with
    the same name have the same keys, whatever else the settings hold. *)
Theorem Q_LIST_Q_STAT_keys (h : Platform) :
  (∀ (m : gmap string pyval) (secret w : pyval) (q : bool) (sn : vdict string)
     (name : string),
     resolve_WORKERS m h = Ok w → probe_QSIZE h = Ok q →
     build_SIGNAL_NAMES (signal h) = Ok sn →
     m !! "name" = Some (PStr name) →
     ∃ c, Conf_class {| settings_Q_CLUSTER := Ok m;
                        settings_SECRET_KEY := Ok secret |} h = Ok c
          ∧ PREFIX c = PStr name
          ∧ Q_LIST c = "django_q:" +:+ name +:+ ":q"
          ∧ Q_STAT c = "django_q:" +:+ name +:+ ":cluster")
  ∧ (∀ (m : gmap string pyval) (secret w : pyval) (q : bool) (sn : vdict string),
     resolve_WORKERS m h = Ok w → probe_QSIZE h = Ok q →
     build_SIGNAL_NAMES (signal h) = Ok sn →
     m !! "name" = None →
     ∃ c, Conf_class {| settings_Q_CLUSTER := Ok m;
                        settings_SECRET_KEY := Ok secret |} h = Ok c
          ∧ PREFIX c = PStr "default"
          ∧ Q_LIST c = "django_q:default:q"
          ∧ Q_STAT c = "django_q:default:cluster")
  ∧ (∀ (secret w : pyval) (q : bool) (sn : vdict string),
     resolve_WORKERS ∅ h = Ok w → probe_QSIZE h = Ok q →
     build_SIGNAL_NAMES (signal h) = Ok sn →
     ∃ c, Conf_class {| settings_Q_CLUSTER := Raise AttributeError;
                        settings_SECRET_KEY := Ok secret |} h = Ok c
          ∧ PREFIX c = PStr "default"
          ∧ Q_LIST c = "django_q:default:q"
          ∧ Q_STAT c = "django_q:default:cluster")
  ∧ (∀ settings c, Conf_class settings h = Ok c →
     (∀ m v, settings_Q_CLUSTER settings = Ok m → m !! "name" = Some v →
             PREFIX c = v)
     ∧ (∀ m, settings_Q_CLUSTER settings = Ok m → m !! "name" = None →
             PREFIX c = PStr "default")
     ∧ (settings_Q_CLUSTER settings = Raise AttributeError →
             PREFIX c = PStr "default")
     ∧ (∀ name, PREFIX c = PStr name →
          Q_LIST c = "django_q:" +:+ name +:+ ":q"
          ∧ Q_STAT c = "django_q:" +:+ name +:+ ":cluster")
     ∧ (conf c !! "name" = None →
          PREFIX c = PStr "default"
          ∧ Q_LIST c = "django_q:default:q" ∧ Q_STAT c = "django_q:default:cluster")
     ∧ (∀ settings' c', Conf_class settings' h = Ok c' → PREFIX c' = PREFIX c →
          Q_LIST c' = Q_LIST c ∧ Q_STAT c' = Q_STAT c)
     ∧ (∀ settings' h' c' name, Conf_class settings' h' = Ok c' →
          PREFIX c = PStr name → PREFIX c' = PStr name →
          Q_LIST c' = Q_LIST c ∧ Q_STAT c' = Q_STAT c)).
Proof.
  split; [|split; [|split]].
  - intros m secret w q sn name Hw Hq Hsn Hn.
    exists (assemble h m w secret q sn). split.
    + apply Conf_class_Ok. by exists m, w, secret, q, sn.
    + cbn. by rewrite (dict_get_Some _ _ _ _ Hn).
  - intros m secret w q sn Hw Hq Hsn Hn.
    exists (assemble h m w secret q sn). split.
    + apply Conf_class_Ok. by exists m, w, secret, q, sn.
    + cbn. by rewrite (dict_get_None _ _ _ Hn).
  - intros secret w q sn Hw Hq Hsn.
    exists (assemble h ∅ w secret q sn). split.
    + apply Conf_class_Ok. by exists ∅, w, secret, q, sn.
    + done.
  - intros settings c (cf & w & k & q & sn & Hcf & _ & _ & _ & _ & ->)%Conf_class_Ok.
    cbn. unfold load_conf in Hcf.
    split; [|split; [|split; [|split; [|split; [|split]]]]].
    + intros m v Hm Hv. rewrite Hm in Hcf. injection Hcf as <-.
      by rewrite (dict_get_Some _ _ _ _ Hv).
    + intros m Hm Hv. rewrite Hm in Hcf. injection Hcf as <-.
      by rewrite (dict_get_None _ _ _ Hv).
    + intros Hm. rewrite Hm in Hcf. by injection Hcf as <-.
    + intros name ->. done.
    + intros Hn. by rewrite (dict_get_None _ _ _ Hn).
    + intros settings' c'
        (cf' & w' & k' & q' & sn' & _ & _ & _ & _ & _ & ->)%Conf_class_Ok.
      cbn. by intros ->.
    + intros settings' h' c' name
        (cf' & w' & k' & q' & sn' & _ & _ & _ & _ & _ & ->)%Conf_class_Ok.
      cbn. by intros -> ->.
Qed.

Lemma Q_LIST_Q_STAT_keys_witness :
  (∃ c, Conf_class (django_settings (Ok (<["name" := PStr "site2"]> ∅)) (PStr "s3cr3t"))
          plain_linux = Ok c
        ∧ PREFIX c = PStr "site2"
        ∧ Q_LIST c = "django_q:site2:q" ∧ Q_STAT c = "django_q:site2:cluster")
  ∧ (∃ c, Conf_class (django_settings (Raise AttributeError) (PStr "s3cr3t"))
            plain_linux = Ok c
          ∧ PREFIX c = PStr "default"
          ∧ Q_LIST c = "django_q:default:q" ∧ Q_STAT c = "django_q:default:cluster").
Proof.
  split.
  - refine (proj1 (Q_LIST_Q_STAT_keys plain_linux)
              (<["name" := PStr "site2"]> ∅) (PStr "s3cr3t") (PInt 8) true []
              "site2" _ _ _ _); reflexivity.
  - refine (proj1 (proj2 (proj2 (Q_LIST_Q_STAT_keys plain_linux)))
              (PStr "s3cr3t") (PInt 8) true [] _ _ _); reflexivity.
Defined.

(** ** Defaults and unknown keys *)

Lemma assemble_agree h cf1 cf2 w k q sn :
  (∀ key, key ∈ documented_keys → cf1 !! key = cf2 !! key) →
  same_snapshot (assemble h cf1 w k q sn) (assemble h cf2 w k q sn).
Proof.
  intros H.
  assert (Hget : ∀ key d, key ∈ documented_keys →
                          dict_get cf1 key d = dict_get cf2 key d).
  { intros key d Hin. apply dict_get_agree, H, Hin. }
  unfold same_snapshot, assemble; cbn.
  rewrite !(Hget "name") by (unfold documented_keys; set_solver).
  repeat split; try reflexivity; apply Hget; unfold documented_keys; set_solver.
Qed.

(** C8. Every attribute whose key is missing from the settings mapping has
    its default, for every mapping and also when the setting itself is
    missing (the mapping is then empty); and two mappings that agree on the
    keys the class reads give the same outcome and the same attributes, so a
    key outside that set changes nothing. *)
Theorem defaults_and_unknown_keys (h : Platform) :
  (∀ settings c, Conf_class settings h = Ok c →
     (∀ m, settings_Q_CLUSTER settings = Ok m → conf c = m)
     ∧ (settings_Q_CLUSTER settings = Raise AttributeError → conf c = ∅)
     ∧ (conf c !! "redis" = None → REDIS c = PDict ∅)
     ∧ (conf c !! "django_redis" = None → DJANGO_REDIS c = PNone)
     ∧ (conf c !! "name" = None → PREFIX c = PStr "default")
     ∧ (conf c !! "log_level" = None → LOG_LEVEL c = PStr "INFO")
     ∧ (conf c !! "save_limit" = None → SAVE_LIMIT c = PInt 250)
     ∧ (conf c !! "queue_limit" = None → QUEUE_LIMIT c = PNone)
     ∧ (conf c !! "compress" = None → COMPRESSED c = PBool false)
     ∧ (conf c !! "recycle" = None → RECYCLE c = PInt 500)
     ∧ (conf c !! "timeout" = None → TIMEOUT c = PNone)
     ∧ (conf c !! "label" = None → LABEL c = PStr "Django Q")
     ∧ (conf c !! "cpu_affinity" = None → CPU_AFFINITY c = PInt 0)
     ∧ (conf c !! "sync" = None → SYNC c = PBool false)
     ∧ (conf c !! "catch_up" = None → CATCH_UP c = PBool true)
     ∧ (conf c !! "testing" = None → TESTING c = PBool false))
  ∧ (∀ (cf1 cf2 : gmap string pyval) (secret : result pyval),
       (∀ key, key ∈ documented_keys → cf1 !! key = cf2 !! key) →
       same_outcome
         (Conf_class {| settings_Q_CLUSTER := Ok cf1; settings_SECRET_KEY := secret |} h)
         (Conf_class {| settings_Q_CLUSTER := Ok cf2; settings_SECRET_KEY := secret |} h))
  ∧ (∀ (cf : gmap string pyval) (secret : result pyval) key v,
       key ∉ documented_keys →
       same_outcome
         (Conf_class {| settings_Q_CLUSTER := Ok (<[key := v]> cf);
                        settings_SECRET_KEY := secret |} h)
         (Conf_class {| settings_Q_CLUSTER := Ok cf; settings_SECRET_KEY := secret |} h)).
Proof.
  assert (Hagree : ∀ (cf1 cf2 : gmap string pyval) (secret : result pyval),
       (∀ key, key ∈ documented_keys → cf1 !! key = cf2 !! key) →
       same_outcome
         (Conf_class {| settings_Q_CLUSTER := Ok cf1; settings_SECRET_KEY := secret |} h)
         (Conf_class {| settings_Q_CLUSTER := Ok cf2; settings_SECRET_KEY := secret |} h)).
  { intros cf1 cf2 secret H. rewrite !Conf_class_steps. cbn.
    rewrite (resolve_WORKERS_agree cf1 cf2 h)
      by (apply H; unfold documented_keys; set_solver).
    destruct (resolve_WORKERS cf2 h) as [w|]; [|done]. cbn.
    destruct secret as [k|]; [|done]. cbn.
    destruct (probe_QSIZE h) as [q|]; [|done]. cbn.
    destruct (build_SIGNAL_NAMES (signal h)) as [sn|]; [|done]. cbn.
    by apply assemble_agree. }
  split; [|split; [exact Hagree|]].
  - intros settings c (cf & w & k & q & sn & Hcf & _ & _ & _ & _ & ->)%Conf_class_Ok.
    cbn. unfold load_conf in Hcf.
    split; [intros m Hm; rewrite Hm in Hcf; cbn in Hcf; congruence|].
    split; [intros Hm; rewrite Hm in Hcf; cbn in Hcf; congruence|].
    repeat split; intros Hn; by rewrite (dict_get_None _ _ _ Hn).
  - intros cf secret key v Hkey. apply Hagree. intros key' Hin.
    apply lookup_insert_ne. by intros ->.
Qed.

Lemma defaults_and_unknown_keys_witness :
  (∃ c, Conf_class (django_settings (Raise AttributeError) (PStr "s3cr3t")) plain_linux
        = Ok c ∧ RECYCLE c = PInt 500)
  ∧ same_outcome
      (Conf_class (django_settings (Ok (<["poll" := PInt 1]> ∅)) (PStr "s3cr3t"))
         plain_linux)
      (Conf_class (django_settings (Ok ∅) (PStr "s3cr3t")) plain_linux).
Proof.
  split.
  - eexists. split; [vm_compute; reflexivity|].
    refine (proj1 (proj2 (proj2 (proj2 (proj2 (proj2 (proj2 (proj2 (proj2 (proj2
              (proj1 (defaults_and_unknown_keys plain_linux)
                 (django_settings (Raise AttributeError) (PStr "s3cr3t")) _ _))))))))))
              _);
      [vm_compute; reflexivity | reflexivity].
  - refine (proj2 (proj2 (defaults_and_unknown_keys plain_linux))
              ∅ (Ok (PStr "s3cr3t")) "poll" (PInt 1) _).
    apply (bool_decide_unpack ("poll" ∉ documented_keys)). vm_compute. exact I.
Defined.

(** ** The choice of the redis client *)

Lemma get_redis_client_direct c h :
  (truthy (DJANGO_REDIS c) = false ∨ django_redis_importable h = false) →
  get_redis_client c h = call_StrictRedis (REDIS c).
Proof.
  unfold get_redis_client, django_redis.
  destruct (truthy (DJANGO_REDIS c)); [|done].
  intros [H|H]; [done | by rewrite H].
Qed.

(** C5. With an alias set (a truthy [DJANGO_REDIS]) and [django_redis]
    importable, the client is the connection that [django_redis] gives for
    the alias.  With an alias set and the module missing, nothing is raised
    for it: the client is the direct [StrictRedis] client made from the
    [REDIS] options.  Without an alias (the default [None], or any falsy
    value) the client is always that direct client; the global
    [django_redis], unbound in this case, is never read. *)
Theorem get_redis_client_paths (c : Conf) (h : Platform) :
  (truthy (DJANGO_REDIS c) = true → django_redis_importable h = true →
     get_redis_client c h = Ok (get_redis_connection (DJANGO_REDIS c)))
  ∧ (truthy (DJANGO_REDIS c) = true → django_redis_importable h = false →
     get_redis_client c h = call_StrictRedis (REDIS c)
     ∧ ∀ kwargs, REDIS c = PDict kwargs →
                 get_redis_client c h = Ok (StrictRedis kwargs))
  ∧ (truthy (DJANGO_REDIS c) = false →
     get_redis_client c h = call_StrictRedis (REDIS c)
     ∧ ∀ kwargs, REDIS c = PDict kwargs →
                 get_redis_client c h = Ok (StrictRedis kwargs)).
Proof.
  split; [|split].
  - intros Ha Hi. unfold get_redis_client, django_redis. by rewrite Ha, Hi.
  - intros _ Hi. rewrite get_redis_client_direct by by right.
    split; [done | by intros kwargs ->].
  - intros Ha. rewrite get_redis_client_direct by by left.
    split; [done | by intros kwargs ->].
Qed.

Lemma get_redis_client_paths_witness :
  get_redis_client
    (assemble plain_linux (<["django_redis" := PStr "default"]> ∅) (PInt 8)
       (PStr "s3cr3t") true [])
    (linux (Ok 8) None (Ok 0) (Some 1) true)
  = Ok (get_redis_connection (PStr "default"))
  ∧ get_redis_client
      (assemble plain_linux (<["django_redis" := PStr "default"]> ∅) (PInt 8)
         (PStr "s3cr3t") true [])
      plain_linux
    = Ok (StrictRedis ∅)
  ∧ get_redis_client (assemble plain_linux ∅ (PInt 8) (PStr "s3cr3t") true [])
      (linux (Ok 8) None (Ok 0) (Some 1) true)
    = Ok (StrictRedis ∅).
Proof.
  split; [|split].
  - exact (proj1 (get_redis_client_paths
             (assemble plain_linux (<["django_redis" := PStr "default"]> ∅) (PInt 8)
                (PStr "s3cr3t") true [])
             (linux (Ok 8) None (Ok 0) (Some 1) true)) eq_refl eq_refl).
  - exact (proj2 (proj1 (proj2 (get_redis_client_paths
             (assemble plain_linux (<["django_redis" := PStr "default"]> ∅) (PInt 8)
                (PStr "s3cr3t") true [])
             plain_linux)) eq_refl eq_refl) ∅ eq_refl).
  - exact (proj2 (proj2 (proj2 (get_redis_client_paths
             (assemble plain_linux ∅ (PInt 8) (PStr "s3cr3t") true [])
             (linux (Ok 8) None (Ok 0) (Some 1) true))) eq_refl) ∅ eq_refl).
Defined.

(** ** The parent process id, by facility *)

(** C9. [get_ppid] returns [os.getppid()] whenever [os] has it; otherwise,
    with [psutil] there, the parent of the current process as [psutil]
    reports it; and it raises [OSError] exactly when neither is there. *)
Theorem get_ppid_facilities (h : Platform) :
  (∀ ppid, os_getppid h = Some ppid → get_ppid h = Ok ppid)
  ∧ (∀ p, os_getppid h = None → psutil h = Some p →
          get_ppid h = Ok (psutil_Process_ppid p (os_getpid h)))
  ∧ ((∃ msg, get_ppid h = Raise (OSError msg))
     ↔ os_getppid h = None ∧ psutil h = None)
  ∧ (∀ e, get_ppid h = Raise e → e = OSError get_ppid_unsupported).
Proof.
  unfold get_ppid.
  destruct (os_getppid h) as [ppid|], (psutil h) as [p|];
    (split; [|split; [|split]]);
    try (intros; congruence);
    try (split; [intros [msg ?] | intros [? ?]]; congruence).
  split; [done | by eexists].
Qed.

Lemma get_ppid_facilities_witness :
  get_ppid plain_linux = Ok 1
  ∧ get_ppid (linux (Ok 8) (Some (a_psutil None)) (Ok 0) None false) = Ok 1
  ∧ ∃ msg, get_ppid (linux (Ok 8) None (Ok 0) None false) = Raise (OSError msg).
Proof.
  split; [|split].
  - exact (proj1 (get_ppid_facilities plain_linux) 1 eq_refl).
  - exact (proj1 (proj2 (get_ppid_facilities
                           (linux (Ok 8) (Some (a_psutil None)) (Ok 0) None false)))
             (a_psutil None) eq_refl eq_refl).
  - exact (proj2 (proj1 (proj2 (proj2 (get_ppid_facilities
                                         (linux (Ok 8) None (Ok 0) None false)))))
             (conj eq_refl eq_refl)).
Defined.

(** ** The signal names *)

Lemma dunder_is_no_signal_name (n : string) :
  startswith n "_" = true → is_signal_name n = false.
Proof.
  unfold is_signal_name, startswith. destruct n as [|a n]; [done|]. cbn.
  destruct (Ascii.eqb_spec "_" a) as [<-|]; [done|].
  destruct a as [[] [] [] [] [] [] [] []]; try done.
  all: by destruct n.
Qed.

Lemma collect_signal_names_none o names acc :
  Forall (λ n, is_signal_name n = false) names →
  collect_signal_names o names acc = Ok acc.
Proof.
  induction 1 as [|n names Hn _ IH]; [done|]. cbn. by rewrite Hn.
Qed.

(** The table built from a function object, whose attributes are all
    double-underscore names, is empty. *)
Lemma SIGNAL_NAMES_of_function (h : Platform) :
  Forall (λ n, startswith n "_" = true) (py_dir (signal h)) →
  build_SIGNAL_NAMES (signal h) = Ok [].
Proof.
  intros H. apply collect_signal_names_none.
  eapply Forall_impl; [exact H|]. apply dunder_is_no_signal_name.
Qed.

(** C3, at a Linux host.  The module [signal] defines [SIGINT] as 2, and the
    table built from the module would map 2 to ["SIGINT"]; but [signal] names
    the function [signal.signal], whose attributes hold no signal name, so
    the table of the resolved [Conf] is empty and has no entry for 2. *)
Theorem SIGNAL_NAMES_is_empty :
  attr_lookup (signal_module plain_linux) "SIGINT" = Some (PInt 2)
  ∧ (∃ d, build_SIGNAL_NAMES (signal_module plain_linux) = Ok d
          ∧ vdict_get d (PInt 2) = Some "SIGINT")
  ∧ ∃ c, Conf_class (django_settings (Ok ∅) (PStr "s3cr3t")) plain_linux = Ok c
         ∧ SIGNAL_NAMES c = []
         ∧ vdict_get (SIGNAL_NAMES c) (PInt 2) = None.
Proof.
  split; [done|]. split; by_running; done.
Qed.

(** * Further properties *)

(** ** When the class body fails *)

Lemma resolve_WORKERS_Raise cf h e :
  resolve_WORKERS cf h = Raise e ↔
  truthy (dict_get cf "workers" (PBool false)) = false
  ∧ cpu_count h = Raise e ∧ e ≠ NotImplementedError.
Proof.
  unfold resolve_WORKERS.
  destruct (truthy (dict_get cf "workers" (PBool false))); cbn.
  { split; [done | by intros [? _]]. }
  destruct (cpu_count h) as [n|e'] eqn:E; cbn.
  { split; [done | by intros (_ & ? & _)]. }
  destruct e'; cbn;
    try (split; [by intros [= <-] | by intros (_ & [= <-] & _)]).
  split; [by destruct (psutil h) | by intros (_ & [= <-] & ?)].
Qed.

(** X1. Resolving the number of workers raises only in one way: the
    override is missing or falsy and [cpu_count()] raises an exception other
    than [NotImplementedError]; that exception is the one that comes out. *)
Theorem resolve_WORKERS_raises (cf : gmap string pyval) (h : Platform) (e : exn) :
  resolve_WORKERS cf h = Raise e ↔
  truthy (dict_get cf "workers" (PBool false)) = false
  ∧ cpu_count h = Raise e ∧ e ≠ NotImplementedError.
Proof. apply resolve_WORKERS_Raise. Qed.

Lemma resolve_WORKERS_raises_witness :
  resolve_WORKERS ∅ (linux (Raise (OSError "sysconf")) None (Ok 0) (Some 1) false)
  = Raise (OSError "sysconf").
Proof.
  apply (proj2 (resolve_WORKERS_raises ∅
                  (linux (Raise (OSError "sysconf")) None (Ok 0) (Some 1) false)
                  (OSError "sysconf"))).
  split; [reflexivity | split; [reflexivity | discriminate]].
Defined.

Lemma load_conf_Ok settings cf :
  load_conf settings = Ok cf ↔
  settings_Q_CLUSTER settings = Ok cf
  ∨ (settings_Q_CLUSTER settings = Raise AttributeError ∧ cf = ∅).
Proof.
  unfold load_conf. destruct (settings_Q_CLUSTER settings) as [m|e]; cbn.
  - split; [by left | by intros [? | [? _]]].
  - destruct e; cbn; split; try done; try (by intros [? | [? _]]).
    + intros [= <-]. by right.
    + by intros [? | [_ ->]].
Qed.

Lemma probe_QSIZE_Ok h :
  (∃ q, probe_QSIZE h = Ok q) ↔
  ∀ e, Queue_qsize h = Raise e → e = NotImplementedError.
Proof.
  unfold probe_QSIZE. destruct (Queue_qsize h) as [n|e]; cbn.
  - split; [done | by eexists].
  - destruct e; cbn; split; try (by eexists); try (by intros _ ? [= <-]);
      try (intros [q ?]; done); intros H; by specialize (H _ eq_refl).
Qed.

(** X2. The class body completes exactly when: reading [Q_CLUSTER] raises
    nothing but [AttributeError]; with a missing or falsy ['workers'],
    [cpu_count()] raises nothing but [NotImplementedError]; the secret key
    can be read; the queue probe raises nothing but [NotImplementedError];
    and every signal name found has a hashable value. *)
Theorem Conf_class_completes_iff (settings : Settings) (h : Platform) :
  (∃ c, Conf_class settings h = Ok c) ↔
  (∀ e, settings_Q_CLUSTER settings = Raise e → e = AttributeError)
  ∧ (∀ cf e, load_conf settings = Ok cf →
       truthy (dict_get cf "workers" (PBool false)) = false →
       cpu_count h = Raise e → e = NotImplementedError)
  ∧ (∃ k, settings_SECRET_KEY settings = Ok k)
  ∧ (∀ e, Queue_qsize h = Raise e → e = NotImplementedError)
  ∧ (∃ sn, build_SIGNAL_NAMES (signal h) = Ok sn).
Proof.
  split.
  - intros (c & (cf & w & k & q & sn & E1 & E2 & E3 & E4 & E5 & _)%Conf_class_Ok).
    split; [|split; [|split; [|split]]].
    + intros e He. unfold load_conf in E1. rewrite He in E1. cbn in E1.
      by destruct e.
    + intros cf' e Hcf' Hw He. rewrite E1 in Hcf'. injection Hcf' as <-.
      assert (e = NotImplementedError ∨ e ≠ NotImplementedError) as [|Hne]
        by (destruct e; auto); [done|].
      assert (resolve_WORKERS cf h = Raise e) as Hr
        by by apply resolve_WORKERS_Raise.
      congruence.
    + by exists k.
    + apply probe_QSIZE_Ok. by exists q.
    + by exists sn.
  - intros (H1 & H2 & [k Hk] & H4 & [sn Hsn]).
    assert (∃ cf, load_conf settings = Ok cf) as [cf Hcf].
    { unfold load_conf. destruct (settings_Q_CLUSTER settings) as [m|e]; cbn.
      - by exists m.
      - rewrite (H1 e eq_refl). by exists ∅. }
    assert (∃ w, resolve_WORKERS cf h = Ok w) as [w Hw].
    { destruct (resolve_WORKERS cf h) as [w|e] eqn:E; [by exists w|].
      apply resolve_WORKERS_Raise in E as (Hf & He & Hne).
      by specialize (H2 cf e Hcf Hf He). }
    apply probe_QSIZE_Ok in H4 as [q Hq].
    exists (assemble h cf w k q sn). apply Conf_class_Ok.
    by exists cf, w, k, q, sn.
Qed.

Lemma Conf_class_completes_iff_witness :
  ∃ c, Conf_class (django_settings (Raise AttributeError) (PStr "s3cr3t"))
         (linux (Raise NotImplementedError) None (Raise NotImplementedError) None false)
       = Ok c.
Proof.
  apply (proj2 (Conf_class_completes_iff
                  (django_settings (Raise AttributeError) (PStr "s3cr3t"))
                  (linux (Raise NotImplementedError) None (Raise NotImplementedError)
                     None false))).
  split; [|split; [|split; [|split]]].
  - intros e [= <-]. reflexivity.
  - intros cf e _ _ [= <-]. reflexivity.
  - eexists. reflexivity.
  - intros e [= <-]. reflexivity.
  - eexists. vm_compute. reflexivity.
Defined.

(** X3. The statements of the class body fail in their order.  An exception
    other than [AttributeError] from reading [Q_CLUSTER] comes out whatever
    the platform and the secret are; a failing processor count comes out
    before the secret key is read; and a signal table that cannot be built
    stops a class body that got that far. *)
Theorem Conf_class_first_failure (settings : Settings) (h : Platform) :
  (∀ e, settings_Q_CLUSTER settings = Raise e → e ≠ AttributeError →
        Conf_class settings h = Raise e)
  ∧ (∀ cf e, load_conf settings = Ok cf → resolve_WORKERS cf h = Raise e →
        Conf_class settings h = Raise e)
  ∧ (∀ cf w k q e, load_conf settings = Ok cf → resolve_WORKERS cf h = Ok w →
        settings_SECRET_KEY settings = Ok k → probe_QSIZE h = Ok q →
        build_SIGNAL_NAMES (signal h) = Raise e →
        Conf_class settings h = Raise e).
Proof.
  rewrite Conf_class_steps. split; [|split].
  - intros e He Hne. unfold load_conf. rewrite He. cbn. by destruct e.
  - intros cf e -> Hw. cbn. by rewrite Hw.
  - intros cf w k q e -> Hw -> -> ->. cbn. by rewrite Hw.
Qed.

Lemma Conf_class_first_failure_witness :
  Conf_class
    {| settings_Q_CLUSTER := Raise (OtherError "ImproperlyConfigured");
       settings_SECRET_KEY := Ok (PStr "s3cr3t") |} plain_linux
  = Raise (OtherError "ImproperlyConfigured").
Proof.
  apply (proj1 (Conf_class_first_failure
                  {| settings_Q_CLUSTER := Raise (OtherError "ImproperlyConfigured");
                     settings_SECRET_KEY := Ok (PStr "s3cr3t") |} plain_linux)).
  - reflexivity.
  - discriminate.
Defined.

(** ** When the client cannot be made *)

(** With libraries that never fail, this is [get_redis_client]. *)
Lemma get_redis_client_with_total c h :
  get_redis_client c h =
    get_redis_client_with
      {| redis_StrictRedis := λ kwargs, Ok (StrictRedis kwargs);
         django_redis_get_redis_connection := λ alias, Ok (get_redis_connection alias) |}
      c h.
Proof.
  unfold get_redis_client, get_redis_client_with, call_StrictRedis.
  by destruct (truthy (DJANGO_REDIS c)), (read_global (django_redis c h)) as [[]|].
Qed.

(** X4. [get_redis_client] adds no failure of its own to those of the
    libraries.  An exception comes out of it exactly when the library call
    on the path taken raises it ([get_redis_connection] for a truthy alias
    with [django_redis] importable, [StrictRedis] otherwise), or as the
    [TypeError] of the call when [REDIS] is not a mapping on the direct
    path; the global [django_redis], bound only under a truthy alias, never
    gives a [NameError]; and a [REDIS] that is not a mapping does no harm on
    the [django_redis] path. *)
Theorem get_redis_client_with_raises (libs : RedisLibraries) (c : Conf)
    (h : Platform) (e : exn) :
  get_redis_client_with libs c h = Raise e ↔
  (truthy (DJANGO_REDIS c) = true ∧ django_redis_importable h = true
   ∧ django_redis_get_redis_connection libs (DJANGO_REDIS c) = Raise e)
  ∨ ((truthy (DJANGO_REDIS c) = false ∨ django_redis_importable h = false)
     ∧ ((∃ kwargs, REDIS c = PDict kwargs ∧ redis_StrictRedis libs kwargs = Raise e)
        ∨ ((∀ kwargs, REDIS c ≠ PDict kwargs) ∧ e = TypeError))).
Proof.
  unfold get_redis_client_with, django_redis.
  destruct (truthy (DJANGO_REDIS c)), (django_redis_importable h); cbn.
  1: { split; [by left|]. intros [(_ & _ & ?) | ([? | ?] & _)]; done. }
  all: split;
    [ intros H; right; split; [auto|];
      destruct (REDIS c) as [| | | |d|]; try (right; split; [done | congruence]);
      left; by exists d
    | intros [(? & ? & _) | (_ & [(d & -> & ?) | (Hno & ->)])]; try done;
      destruct (REDIS c) as [| | | |d|]; try done; by specialize (Hno d) ].
Qed.

Lemma get_redis_client_with_raises_witness :
  get_redis_client_with
    {| redis_StrictRedis := λ kwargs,
         if bool_decide (kwargs !! "bogus" = None) then Ok (StrictRedis kwargs)
         else Raise TypeError;
       django_redis_get_redis_connection := λ _, Raise (OtherError "InvalidCacheBackendError") |}
    (assemble plain_linux (<["django_redis" := PStr "nope"]> ∅) (PInt 8) (PStr "k") true [])
    (linux (Ok 8) None (Ok 0) (Some 1) true)
  = Raise (OtherError "InvalidCacheBackendError").
Proof.
  apply (proj2 (get_redis_client_with_raises _
                  (assemble plain_linux (<["django_redis" := PStr "nope"]> ∅) (PInt 8)
                     (PStr "k") true [])
                  (linux (Ok 8) None (Ok 0) (Some 1) true)
                  (OtherError "InvalidCacheBackendError"))).
  left. split; [reflexivity | split; reflexivity].
Defined.

(** ** Keys of a dict *)

Lemma key_eqb_class a b :
  key_eqb a b = true ↔ ∃ c, class_of_key a = Some c ∧ class_of_key b = Some c.
Proof.
  destruct a, b; cbn; rewrite ?Z.eqb_eq, ?String.eqb_eq, ?Pos.eqb_eq;
    (split; [intros H;
             first [discriminate | eexists; split; [reflexivity | congruence]]
            | intros (c & H1 & H2); congruence]).
Qed.

Lemma hashable_class v : hashable v = true ↔ is_Some (class_of_key v).
Proof.
  destruct v; cbn;
    (split; [first [done | intros _; by eexists] | first [done | by intros [? ?]]]).
Qed.

Lemma key_eqb_refl v : hashable v = true → key_eqb v v = true.
Proof. intros [c Hc]%hashable_class. apply key_eqb_class. by exists c. Qed.

Lemma key_eqb_sym a b : key_eqb a b = true → key_eqb b a = true.
Proof. rewrite !key_eqb_class. intros (c & ? & ?). by exists c. Qed.

Lemma key_eqb_trans a b c :
  key_eqb a b = true → key_eqb b c = true → key_eqb a c = true.
Proof.
  rewrite !key_eqb_class. intros (x & Ha & Hb) (y & Hb' & Hc).
  exists x. split; [done | congruence].
Qed.

Lemma vdict_get_setitem {V} (d : vdict V) k v :
  hashable k = true → vdict_get (vdict_setitem d k v) k = Some v.
Proof.
  intros Hk. induction d as [|[k' v'] d IH]; cbn.
  - by rewrite key_eqb_refl.
  - destruct (key_eqb k' k) eqn:E; cbn; by rewrite E.
Qed.

Lemma vdict_get_setitem_ne {V} (d : vdict V) k k2 v :
  key_eqb k k2 = false → vdict_get (vdict_setitem d k v) k2 = vdict_get d k2.
Proof.
  intros Hne. induction d as [|[k' v'] d IH]; cbn.
  - by rewrite Hne.
  - destruct (key_eqb k' k) eqn:E; cbn.
    + destruct (key_eqb k' k2) eqn:E2; [|done].
      apply key_eqb_sym in E. by rewrite (key_eqb_trans _ _ _ E E2) in Hne.
    + by destruct (key_eqb k' k2).
Qed.

Lemma elem_of_vdict_setitem {V} (d : vdict V) k v k1 v1 :
  (k1, v1) ∈ vdict_setitem d k v →
  (k1, v1) ∈ d ∨ (v1 = v ∧ (k1 = k ∨ key_eqb k1 k = true)).
Proof.
  induction d as [|[k' v'] d IH]; cbn.
  - intros [= -> ->]%list_elem_of_singleton. right. by split; [|left].
  - destruct (key_eqb k' k) eqn:E.
    + intros [[= -> ->] | Hin]%elem_of_cons.
      * right. by split; [|right].
      * left. by right.
    + intros [[= -> ->] | Hin]%elem_of_cons.
      * left. by left.
      * destruct (IH Hin) as [? | ?]; [left; by right | by right].
Qed.

(** ** The dict comprehension of line 101, on any object *)

Lemma collect_signal_names_sound o names acc d :
  collect_signal_names o names acc = Ok d →
  (∀ k n, (k, n) ∈ acc →
     is_signal_name n = true ∧ ∃ v, attr_lookup o n = Some v ∧ key_eqb k v = true) →
  ∀ k n, (k, n) ∈ d →
     is_signal_name n = true ∧ ∃ v, attr_lookup o n = Some v ∧ key_eqb k v = true.
Proof.
  revert acc. induction names as [|m names IH]; intros acc; cbn.
  - by intros [= <-].
  - destruct (is_signal_name m) eqn:Hm; [|apply IH].
    unfold getattr. destruct (attr_lookup o m) as [u|] eqn:Hu; [|done]. cbn.
    destruct (hashable u) eqn:Hh; [|done].
    intros Hd Hacc. apply (IH _ Hd). intros k n Hin.
    apply elem_of_vdict_setitem in Hin as [Hin | [-> Hk]]; [by apply Hacc|].
    split; [done|]. exists u. split; [done|].
    destruct Hk as [-> | Hk]; [by apply key_eqb_refl | done].
Qed.

(** X5. Every entry of a table that the comprehension builds, from whatever
    object, is a name that starts with ["SIG"] and has no underscore, under a
    key equal to the value of that attribute: no alias with an underscore
    such as [SIG_DFL] ever gets in. *)
Theorem SIGNAL_NAMES_entries_sound (o : list (string * pyval)) (d : vdict string) :
  build_SIGNAL_NAMES o = Ok d →
  ∀ k n, (k, n) ∈ d →
    startswith n "SIG" = true ∧ contains_char "_" n = false
    ∧ ∃ v, attr_lookup o n = Some v ∧ key_eqb k v = true.
Proof.
  intros Hd k n Hin.
  destruct (collect_signal_names_sound o (py_dir o) [] d Hd) with k n
    as [Hn Hv]; [by intros ? ? ?%elem_of_nil | done |].
  unfold is_signal_name in Hn. apply andb_true_iff in Hn as [H1 H2].
  by apply negb_true_iff in H2.
Qed.

Lemma SIGNAL_NAMES_entries_sound_witness :
  startswith "SIGTERM" "SIG" = true ∧ contains_char "_" "SIGTERM" = false
  ∧ ∃ v, attr_lookup linux_signal_module "SIGTERM" = Some v
         ∧ key_eqb (PInt 15) v = true.
Proof.
  refine (SIGNAL_NAMES_entries_sound linux_signal_module _ _ (PInt 15) "SIGTERM" _).
  - vm_compute. reflexivity.
  - repeat first [apply list_elem_of_here | apply list_elem_of_further].
Defined.

Lemma collect_signal_names_skip o names acc v :
  (∀ m u, m ∈ names → is_signal_name m = true → attr_lookup o m = Some u →
          key_eqb v u = false) →
  ∀ d, collect_signal_names o names acc = Ok d → vdict_get d v = vdict_get acc v.
Proof.
  revert acc. induction names as [|m names IH]; intros acc Hno d; cbn.
  - by intros [= <-].
  - assert (Hrest : ∀ m' u, m' ∈ names → is_signal_name m' = true →
                            attr_lookup o m' = Some u → key_eqb v u = false).
    { intros m' u Hin. apply Hno. by right. }
    destruct (is_signal_name m) eqn:Hm; [|by apply IH].
    unfold getattr. destruct (attr_lookup o m) as [u|] eqn:Hu; [|done]. cbn.
    destruct (hashable u); [|done].
    intros Hd. rewrite (IH _ Hrest _ Hd). apply vdict_get_setitem_ne.
    assert (Hvu : key_eqb v u = false) by (apply (Hno m); [by left | done..]).
    destruct (key_eqb u v) eqn:E; [|done].
    apply key_eqb_sym in E. congruence.
Qed.

Lemma collect_signal_names_last o l1 n l2 acc d v :
  collect_signal_names o (l1 ++ n :: l2) acc = Ok d →
  is_signal_name n = true → attr_lookup o n = Some v →
  (∀ m u, m ∈ l2 → is_signal_name m = true → attr_lookup o m = Some u →
          key_eqb v u = false) →
  vdict_get d v = Some n.
Proof.
  revert acc. induction l1 as [|m l1 IH]; intros acc; cbn.
  - intros Hd Hn Hv Hno. rewrite Hn in Hd. unfold getattr in Hd.
    rewrite Hv in Hd. cbn in Hd. destruct (hashable v) eqn:Hh; [|done].
    rewrite (collect_signal_names_skip _ _ _ _ Hno _ Hd).
    by apply vdict_get_setitem.
  - destruct (is_signal_name m); [|apply IH].
    destruct (getattr o m) as [u|]; [|done]. cbn.
    destruct (hashable u); [|done]. apply IH.
Qed.

(** X6. When several signal names have the same value, the table built by
    the comprehension keeps the one that comes last in [dir]: looking up the
    value of a signal name gives that name whenever no later signal name has
    an equal value. *)
Theorem SIGNAL_NAMES_last_name_wins (o : list (string * pyval)) (d : vdict string)
    (l1 l2 : list string) (n : string) (v : pyval) :
  build_SIGNAL_NAMES o = Ok d →
  py_dir o = l1 ++ n :: l2 →
  is_signal_name n = true →
  attr_lookup o n = Some v →
  (∀ m u, m ∈ l2 → is_signal_name m = true → attr_lookup o m = Some u →
          key_eqb v u = false) →
  vdict_get d v = Some n.
Proof.
  unfold build_SIGNAL_NAMES. intros Hd Hdir. rewrite Hdir in Hd.
  exact (collect_signal_names_last o l1 n l2 [] d v Hd).
Qed.

Lemma SIGNAL_NAMES_last_name_wins_witness :
  ∃ d, build_SIGNAL_NAMES linux_signal_module = Ok d
       ∧ vdict_get d (PInt 6) = Some "SIGIOT".
Proof.
  eexists. split; [vm_compute; reflexivity|].
  refine (SIGNAL_NAMES_last_name_wins linux_signal_module _
            ["ITIMER_REAL"; "NSIG"; "SIGABRT"; "SIGALRM"; "SIGHUP"; "SIGINT"]
            ["SIGKILL"; "SIGQUIT"; "SIGTERM"; "SIG_DFL"; "SIG_IGN"; "__name__";
             "alarm"; "getsignal"; "signal"]
            "SIGIOT" (PInt 6) _ eq_refl eq_refl eq_refl _).
  - vm_compute. reflexivity.
  - intros m u Hin Hs Hu.
    repeat (apply elem_of_cons in Hin as [-> | Hin];
            [vm_compute in Hs, Hu;
             first [discriminate | injection Hu as <-; reflexivity]|]).
    by apply elem_of_nil in Hin.
Defined.

(** X7. The comprehension, run over any listing of names, fails in two
    ways only: with [AttributeError] when a listed signal name cannot be read
    from the object, with [TypeError] when the value read is unhashable.  It
    completes exactly when every listed name that passes the filter can be
    read and has a hashable value; names that do not pass the filter are
    never read. *)
Theorem SIGNAL_NAMES_comprehension_failures (o : list (string * pyval))
    (names : list string) (acc : vdict string) :
  (∀ e, collect_signal_names o names acc = Raise e →
     (e = AttributeError
      ∧ ∃ n, n ∈ names ∧ is_signal_name n = true ∧ attr_lookup o n = None)
     ∨ (e = TypeError
        ∧ ∃ n v, n ∈ names ∧ is_signal_name n = true
                 ∧ attr_lookup o n = Some v ∧ hashable v = false))
  ∧ ((∃ d, collect_signal_names o names acc = Ok d) ↔
     ∀ n, n ∈ names → is_signal_name n = true →
          ∃ v, attr_lookup o n = Some v ∧ hashable v = true).
Proof.
  revert acc. induction names as [|m names IH]; intros acc; cbn.
  - split; [done|]. split; [by intros _ ? ?%elem_of_nil | by eexists].
  - destruct (is_signal_name m) eqn:Hm.
    + unfold getattr. destruct (attr_lookup o m) as [u|] eqn:Hu; cbn.
      * destruct (hashable u) eqn:Hh.
        -- destruct (IH (vdict_setitem acc u m)) as [IH1 IH2]. split.
           ++ intros e He.
              destruct (IH1 e He) as [(-> & n & ? & ? & ?) | (-> & n & v & ? & ? & ? & ?)].
              ** left. split; [done|]. exists n. split; [by right | done].
              ** right. split; [done|]. exists n, v. split; [by right | done].
           ++ rewrite IH2. split.
              ** intros H n [-> | Hin]%elem_of_cons Hn; [by exists u | by apply H].
              ** intros H n Hin. apply H. by right.
        -- split.
           ++ intros e [= <-]. right. split; [done|]. exists m, u.
              split; [by left | done].
           ++ split; [by intros [? ?]|]. intros H.
              destruct (H m) as (v & Hv & Hhv); [by left | done |]. congruence.
      * split.
        -- intros e [= <-]. left. split; [done|]. exists m. split; [by left | done].
        -- split; [by intros [? ?]|]. intros H.
           destruct (H m) as (v & Hv & _); [by left | done |]. congruence.
    + destruct (IH acc) as [IH1 IH2]. split.
      * intros e He.
        destruct (IH1 e He) as [(-> & n & ? & ? & ?) | (-> & n & v & ? & ? & ? & ?)].
        -- left. split; [done|]. exists n. split; [by right | done].
        -- right. split; [done|]. exists n, v. split; [by right | done].
      * rewrite IH2. split.
        -- intros H n [-> | Hin]%elem_of_cons Hn; [congruence | by apply H].
        -- intros H n Hin. apply H. by right.
Qed.

Lemma SIGNAL_NAMES_comprehension_failures_witness :
  (∃ d, collect_signal_names [("SIGINT", PInt 2); ("SIG_X", PDict ∅)]
          ["SIGINT"; "SIG_X"; "__doc__"] [] = Ok d)
  ∧ ∃ n, n ∈ ["SIGINT"; "SIGKILL"] ∧ is_signal_name n = true
         ∧ attr_lookup [("SIGINT", PInt 2)] n = None.
Proof.
  split.
  - apply (proj2 (proj2 (SIGNAL_NAMES_comprehension_failures
                           [("SIGINT", PInt 2); ("SIG_X", PDict ∅)]
                           ["SIGINT"; "SIG_X"; "__doc__"] []))).
    intros n Hin Hs.
    repeat (apply elem_of_cons in Hin as [-> | Hin];
            [vm_compute in Hs; first [discriminate | by eexists]|]).
    by apply elem_of_nil in Hin.
  - destruct (proj1 (SIGNAL_NAMES_comprehension_failures [("SIGINT", PInt 2)]
                       ["SIGINT"; "SIGKILL"] []) AttributeError eq_refl)
      as [[_ H] | [H _]]; [exact H | discriminate H].
Defined.

(** X8. On every platform where the attributes of the function
    [signal.signal] all begin with an underscore (as those of a function
    do), the table of a resolved [Conf] is empty: looking up any signal
    number in it finds nothing. *)
Theorem SIGNAL_NAMES_lookup_finds_nothing (settings : Settings) (h : Platform)
    (c : Conf) :
  Conf_class settings h = Ok c →
  Forall (λ n, startswith n "_" = true) (py_dir (signal h)) →
  SIGNAL_NAMES c = [] ∧ ∀ k, vdict_get (SIGNAL_NAMES c) k = None.
Proof.
  intros (cf & w & k & q & sn & _ & _ & _ & _ & Hsn & ->)%Conf_class_Ok Hd.
  rewrite (SIGNAL_NAMES_of_function h Hd) in Hsn. injection Hsn as <-. done.
Qed.

Lemma SIGNAL_NAMES_lookup_finds_nothing_witness :
  ∃ c, Conf_class (django_settings (Ok ∅) (PStr "s3cr3t")) plain_linux = Ok c
       ∧ SIGNAL_NAMES c = [] ∧ ∀ k, vdict_get (SIGNAL_NAMES c) k = None.
Proof.
  eexists. split; [vm_compute; reflexivity|].
  refine (SIGNAL_NAMES_lookup_finds_nothing
            (django_settings (Ok ∅) (PStr "s3cr3t")) plain_linux _ _ _).
  - vm_compute. reflexivity.
  - repeat (apply Forall_cons; split; [reflexivity|]). apply Forall_nil. done.
Defined.

(** ** The redis keys never collide *)

Lemma length_append s t :
  String.length (s +:+ t) = (String.length s + String.length t)%nat.
Proof.
  induction s as [|a s IH]; [done|].
  change (String a s +:+ t) with (String a (s +:+ t)). cbn. by rewrite IH.
Qed.

Lemma append_inj_r s1 s2 t : s1 +:+ t = s2 +:+ t → s1 = s2.
Proof.
  revert s2. induction s1 as [|a s1 IH]; intros [|b s2] H.
  - done.
  - apply (f_equal String.length) in H. rewrite !length_append in H.
    cbn in H. lia.
  - apply (f_equal String.length) in H. rewrite !length_append in H.
    cbn in H. lia.
  - change (String a (s1 +:+ t) = String b (s2 +:+ t)) in H.
    injection H as -> H. f_equal. by apply IH.
Qed.

Lemma last_char_append s t : t ≠ "" → last_char (s +:+ t) = last_char t.
Proof.
  intros Ht. induction s as [|a s IH]; [done|].
  change (String a s +:+ t) with (String a (s +:+ t)). cbn.
  destruct (s +:+ t) eqn:E; [|done].
  apply (f_equal String.length) in E. rewrite length_append in E.
  destruct t; [done | cbn in E; lia].
Qed.

Lemma format_Q_LIST_inj h1 h2 v1 v2 :
  format_Q_LIST h1 v1 = format_Q_LIST h2 v2 ↔
  py_str (object_str h1) v1 = py_str (object_str h2) v2.
Proof.
  unfold format_Q_LIST. split; [|by intros ->].
  intros H%(inj (String.app _)). by apply append_inj_r in H.
Qed.

Lemma format_Q_STAT_inj h1 h2 v1 v2 :
  format_Q_STAT h1 v1 = format_Q_STAT h2 v2 ↔
  py_str (object_str h1) v1 = py_str (object_str h2) v2.
Proof.
  unfold format_Q_STAT. split; [|by intros ->].
  intros H%(inj (String.app _)). by apply append_inj_r in H.
Qed.

(** X9. The list key of a cluster is never the stats key of a cluster, its
    own or another, whatever the names are: the one ends in ["q"], the other
    in ["cluster"]. *)
Theorem Q_LIST_never_a_Q_STAT (settings1 settings2 : Settings) (h1 h2 : Platform)
    (c1 c2 : Conf) :
  Conf_class settings1 h1 = Ok c1 → Conf_class settings2 h2 = Ok c2 →
  Q_LIST c1 ≠ Q_STAT c2.
Proof.
  intros (cf1 & w1 & k1 & q1 & sn1 & _ & _ & _ & _ & _ & ->)%Conf_class_Ok
         (cf2 & w2 & k2 & q2 & sn2 & _ & _ & _ & _ & _ & ->)%Conf_class_Ok.
  cbn. unfold format_Q_LIST, format_Q_STAT.
  intros H%(inj (String.app _)). apply (f_equal last_char) in H.
  by rewrite !last_char_append in H.
Qed.

Lemma Q_LIST_never_a_Q_STAT_witness :
  ∃ c1 c2,
    Conf_class (django_settings (Ok (<["name" := PStr "a:cluster"]> ∅)) (PStr "k"))
      plain_linux = Ok c1
    ∧ Conf_class (django_settings (Ok (<["name" := PStr "a"]> ∅)) (PStr "k"))
        plain_linux = Ok c2
    ∧ Q_LIST c1 ≠ Q_STAT c2.
Proof.
  eexists _, _. split; [vm_compute; reflexivity|]. split; [vm_compute; reflexivity|].
  refine (Q_LIST_never_a_Q_STAT
            (django_settings (Ok (<["name" := PStr "a:cluster"]> ∅)) (PStr "k"))
            (django_settings (Ok (<["name" := PStr "a"]> ∅)) (PStr "k"))
            plain_linux plain_linux _ _ _ _); vm_compute; reflexivity.
Defined.

(** X10. Clusters with different names have different keys: when the names
    are strings, equal list keys, or equal stats keys, mean equal names; and
    in general two clusters share the list key exactly when they share the
    stats key. *)
Theorem keys_tell_clusters_apart (settings1 settings2 : Settings) (h1 h2 : Platform)
    (c1 c2 : Conf) :
  Conf_class settings1 h1 = Ok c1 → Conf_class settings2 h2 = Ok c2 →
  (Q_LIST c1 = Q_LIST c2 ↔ Q_STAT c1 = Q_STAT c2)
  ∧ (∀ a b, PREFIX c1 = PStr a → PREFIX c2 = PStr b →
       Q_LIST c1 = Q_LIST c2 ∨ Q_STAT c1 = Q_STAT c2 → a = b).
Proof.
  intros (cf1 & w1 & k1 & q1 & sn1 & _ & _ & _ & _ & _ & ->)%Conf_class_Ok
         (cf2 & w2 & k2 & q2 & sn2 & _ & _ & _ & _ & _ & ->)%Conf_class_Ok.
  cbn. split; [by rewrite format_Q_LIST_inj, format_Q_STAT_inj|].
  intros a b -> ->. rewrite format_Q_LIST_inj, format_Q_STAT_inj. cbn.
  by intros [|].
Qed.

Lemma keys_tell_clusters_apart_witness :
  ∃ c1 c2,
    Conf_class (django_settings (Ok (<["name" := PStr "site1"]> ∅)) (PStr "k"))
      plain_linux = Ok c1
    ∧ Conf_class (django_settings (Ok (<["name" := PStr "site2"]> ∅)) (PStr "k"))
        plain_linux = Ok c2
    ∧ (Q_LIST c1 = Q_LIST c2 ↔ Q_STAT c1 = Q_STAT c2).
Proof.
  eexists _, _. split; [vm_compute; reflexivity|]. split; [vm_compute; reflexivity|].
  refine (proj1 (keys_tell_clusters_apart
            (django_settings (Ok (<["name" := PStr "site1"]> ∅)) (PStr "k"))
            (django_settings (Ok (<["name" := PStr "site2"]> ∅)) (PStr "k"))
            plain_linux plain_linux _ _ _ _)); vm_compute; reflexivity.
Defined.

(** ** The logger *)

Lemma getLogger_lookup name L :
  (getLogger name L).1 !! name = Some (getLogger name L).2
  ∧ (getLogger name L).2 = default new_Logger (L !! name)
  ∧ ∀ other, other ≠ name → (getLogger name L).1 !! other = L !! other.
Proof.
  unfold getLogger. destruct (L !! name) as [lg|] eqn:E; cbn.
  - done.
  - split; [apply lookup_insert_eq|]. split; [done|].
    intros other Hne. by apply lookup_insert_ne.
Qed.

Lemma setup_logger_configured lib c L lg :
  L !! "django-q" = Some lg → logger_handlers lg ≠ [] →
  setup_logger lib c L = (L, Ok ()).
Proof.
  intros HL Hh. unfold setup_logger, getLogger. rewrite HL.
  by destruct (logger_handlers lg).
Qed.

Lemma setup_logger_unconfigured lib c L :
  logger_handlers (default new_Logger (L !! "django-q")) = [] →
  setup_logger lib c L =
    match (v ← getattr_value (logging_names lib) (LOG_LEVEL c);
           Logger_checkLevel lib v) with
    | Raise e => ((getLogger "django-q" L).1, Raise e)
    | Ok level =>
        (<["django-q" :=
             {| logger_level := level;
                logger_handlers :=
                  [ {| handler_class := "StreamHandler";
                       handler_formatter :=
                         Some {| formatter_fmt :=
                                   "%(asctime)s [Q] %(levelname)s %(message)s";
                                 formatter_datefmt := "%H:%M:%S" |} |} ] |}]> L,
         Ok ())
    end.
Proof.
  intros Hh. unfold setup_logger, getLogger.
  destruct (L !! "django-q") as [lg|] eqn:E; cbn in *; rewrite ?Hh.
  - destruct (_ ← getattr_value _ _; _); [|done].
    unfold addHandler, setLevel. cbn. by rewrite Hh.
  - destruct (_ ← getattr_value _ _; _); [|done].
    unfold addHandler, setLevel. cbn. by rewrite insert_insert_eq.
Qed.

(** X11. Once the block has run without raising, the logger ['django-q']
    has a handler, and running the block again (at a reload, and whatever
    the configuration then says) changes nothing: no second handler is ever
    attached. *)
Theorem setup_logger_attaches_once (lib : Logging) (c : Conf)
    (L L1 : gmap string Logger) :
  setup_logger lib c L = (L1, Ok ()) →
  (∃ lg, L1 !! "django-q" = Some lg ∧ logger_handlers lg ≠ [])
  ∧ ∀ lib' c', setup_logger lib' c' L1 = (L1, Ok ()).
Proof.
  intros H.
  assert (∃ lg, L1 !! "django-q" = Some lg ∧ logger_handlers lg ≠ [])
    as (lg & Hlg & Hh).
  { destruct (L !! "django-q") as [lg|] eqn:E.
    - destruct (logger_handlers lg) as [|hd tl] eqn:Eh.
      + rewrite setup_logger_unconfigured in H by by rewrite E.
        destruct (_ ← getattr_value _ _; _); [|done].
        injection H as <-. eexists. by rewrite lookup_insert_eq.
      + rewrite (setup_logger_configured lib c L lg) in H by by rewrite ?Eh.
        injection H as <-. exists lg. by rewrite Eh.
    - rewrite setup_logger_unconfigured in H by by rewrite E.
      destruct (_ ← getattr_value _ _; _); [|done].
      injection H as <-. eexists. by rewrite lookup_insert_eq. }
  split; [by exists lg|]. intros lib' c'. by apply (setup_logger_configured _ _ _ lg).
Qed.

Lemma setup_logger_attaches_once_witness :
  ∃ L1, setup_logger std_logging (assemble plain_linux ∅ (PInt 8) (PStr "k") true []) ∅
        = (L1, Ok ())
        ∧ setup_logger std_logging
            (assemble plain_linux (<["log_level" := PStr "VERBOSE"]> ∅) (PInt 8)
               (PStr "k") true []) L1
          = (L1, Ok ()).
Proof.
  eexists. split; [vm_compute; reflexivity|].
  refine (proj2 (setup_logger_attaches_once std_logging
                   (assemble plain_linux ∅ (PInt 8) (PStr "k") true []) ∅ _ _) _ _).
  vm_compute. reflexivity.
Defined.

(** X12. On a logger without a handler (a new one, or one that was only
    looked up before), a [LOG_LEVEL] that names a level gives the logger
    that level and exactly one handler: a stream handler whose formatter has
    the format ['%(asctime)s [Q] %(levelname)s %(message)s'] and the date
    format ['%H:%M:%S']. *)
Theorem setup_logger_fresh (lib : Logging) (c : Conf) (L : gmap string Logger)
    (n : string) (v level : pyval) :
  logger_handlers (default new_Logger (L !! "django-q")) = [] →
  LOG_LEVEL c = PStr n →
  attr_lookup (logging_names lib) n = Some v →
  Logger_checkLevel lib v = Ok level →
  setup_logger lib c L =
    (<["django-q" :=
         {| logger_level := level;
            logger_handlers :=
              [ {| handler_class := "StreamHandler";
                   handler_formatter :=
                     Some {| formatter_fmt :=
                               "%(asctime)s [Q] %(levelname)s %(message)s";
                             formatter_datefmt := "%H:%M:%S" |} |} ] |}]> L,
     Ok ()).
Proof.
  intros Hh Hl Hv Hc. rewrite setup_logger_unconfigured by done.
  rewrite Hl. cbn. unfold getattr. rewrite Hv. cbn. by rewrite Hc.
Qed.

Lemma setup_logger_fresh_witness :
  ∃ L1 lg,
    setup_logger std_logging (assemble plain_linux ∅ (PInt 8) (PStr "k") true []) ∅
    = (L1, Ok ())
    ∧ L1 !! "django-q" = Some lg
    ∧ logger_level lg = PInt 20 ∧ length (logger_handlers lg) = 1%nat.
Proof.
  eexists _, _. split.
  - exact (setup_logger_fresh std_logging
             (assemble plain_linux ∅ (PInt 8) (PStr "k") true []) ∅
             "INFO" (PInt 20) (PInt 20) eq_refl eq_refl eq_refl eq_refl).
  - split; [apply lookup_insert_eq | done].
Defined.

(** X13. A logger ['django-q'] that already has a handler is left as it is:
    no handler is added, its level is not changed, and [LOG_LEVEL] is not
    even read, so a wrong level name raises nothing. *)
Theorem setup_logger_respects_handlers (lib : Logging) (c : Conf)
    (L : gmap string Logger) (lg : Logger) :
  L !! "django-q" = Some lg → logger_handlers lg ≠ [] →
  setup_logger lib c L = (L, Ok ()).
Proof. apply setup_logger_configured. Qed.

Lemma setup_logger_respects_handlers_witness :
  setup_logger std_logging
    (assemble plain_linux (<["log_level" := PStr "VERBOSE"]> ∅) (PInt 8) (PStr "k")
       true [])
    (<["django-q" := configured_logger]> ∅)
  = (<["django-q" := configured_logger]> ∅, Ok ()).
Proof.
  refine (setup_logger_respects_handlers std_logging _ _ configured_logger _ _).
  - apply lookup_insert_eq.
  - discriminate.
Defined.

(** X14. The block never touches another logger, and never takes a handler
    away from ['django-q']: the handlers it had are still the first ones
    afterwards, whether the block raised or not. *)
Theorem setup_logger_frame (lib : Logging) (c : Conf) (L : gmap string Logger) :
  (∀ name, name ≠ "django-q" → (setup_logger lib c L).1 !! name = L !! name)
  ∧ (∀ lg, L !! "django-q" = Some lg →
       ∃ lg1, (setup_logger lib c L).1 !! "django-q" = Some lg1
              ∧ logger_handlers lg `prefix_of` logger_handlers lg1).
Proof.
  destruct (logger_handlers (default new_Logger (L !! "django-q"))) as [|hd tl] eqn:Eh.
  - rewrite setup_logger_unconfigured by done.
    destruct (_ ← getattr_value _ _; _) as [level|e]; cbn.
    + split; [intros name Hne; by apply lookup_insert_ne|].
      intros lg Hlg. rewrite Hlg in Eh. cbn in Eh. eexists.
      split; [apply lookup_insert_eq|]. rewrite Eh. apply prefix_nil.
    + destruct (getLogger_lookup "django-q" L) as (H1 & H2 & H3).
      split; [intros name Hne; by apply H3|].
      intros lg Hlg. rewrite Hlg in H2. cbn in H2. exists lg.
      split; [by rewrite H1, H2 | done].
  - destruct (L !! "django-q") as [lg|] eqn:E; [|done]. cbn in Eh.
    rewrite (setup_logger_configured lib c L lg) by by rewrite ?Eh.
    split; [done|]. intros lg' [= <-]. by exists lg.
Qed.

Lemma setup_logger_frame_witness :
  (setup_logger std_logging (assemble plain_linux ∅ (PInt 8) (PStr "k") true [])
     (<["django" := configured_logger]> ∅)).1 !! "django"
  = Some configured_logger.
Proof.
  rewrite (proj1 (setup_logger_frame std_logging
                    (assemble plain_linux ∅ (PInt 8) (PStr "k") true [])
                    (<["django" := configured_logger]> ∅)) "django").
  - apply lookup_insert_eq.
  - discriminate.
Defined.

(** ** The module as a whole *)

Lemma import_module_Ok settings h lib L L1 m :
  import_module settings h lib L = (L1, Ok m) ↔
  ∃ c cl, Conf_class settings h = Ok c ∧ setup_logger lib c L = (L1, Ok ())
          ∧ get_redis_client c h = Ok cl
          ∧ m = {| module_Conf := c; module_django_redis := django_redis c h;
                   module_redis_client := cl |}.
Proof.
  unfold import_module. split.
  - destruct (Conf_class settings h) as [c|] eqn:Ec; [|done].
    destruct (setup_logger lib c L) as [L' [[]|]] eqn:El; [|done].
    destruct (get_redis_client c h) as [cl|] eqn:Ecl; [|done]. cbn.
    intros [= <- <-]. by exists c, cl.
  - intros (c & cl & -> & -> & Hcl & ->). by rewrite Hcl.
Qed.

(** X15. What a successful import leaves behind fits together: the class
    is the resolved configuration, [redis_client] is the client that
    [get_redis_client] gives for it, the logger ['django-q'] has a handler,
    and the client is a [django_redis] connection exactly when the global
    [django_redis] is bound to the module. *)
Theorem import_module_result (settings : Settings) (h : Platform) (lib : Logging)
    (L L1 : gmap string Logger) (m : ConfModule) :
  import_module settings h lib L = (L1, Ok m) →
  Conf_class settings h = Ok (module_Conf m)
  ∧ get_redis_client (module_Conf m) h = Ok (module_redis_client m)
  ∧ (∃ lg, L1 !! "django-q" = Some lg ∧ logger_handlers lg ≠ [])
  ∧ ((∃ alias, module_redis_client m = get_redis_connection alias)
     ↔ module_django_redis m = BoundModule).
Proof.
  intros (c & cl & Hc & Hl & Hcl & ->)%import_module_Ok. cbn.
  split; [done|]. split; [done|]. split.
  - destruct (L !! "django-q") as [lg|] eqn:E.
    + destruct (logger_handlers lg) as [|hd tl] eqn:Eh.
      * rewrite setup_logger_unconfigured in Hl by by rewrite E.
        destruct (_ ← getattr_value _ _; _); [|done].
        injection Hl as <-. eexists. by rewrite lookup_insert_eq.
      * rewrite (setup_logger_configured lib c L lg) in Hl by by rewrite ?Eh.
        injection Hl as <-. exists lg. by rewrite Eh.
    + rewrite setup_logger_unconfigured in Hl by by rewrite E.
      destruct (_ ← getattr_value _ _; _); [|done].
      injection Hl as <-. eexists. by rewrite lookup_insert_eq.
  - unfold get_redis_client, django_redis in *.
    destruct (truthy (DJANGO_REDIS c)), (django_redis_importable h); cbn in *.
    1: { injection Hcl as <-. split; [done | by eexists]. }
    all: unfold call_StrictRedis in Hcl; destruct (REDIS c); try done.
    all: injection Hcl as <-; split; [by intros [? ?] | done].
Qed.

Lemma import_module_result_witness :
  ∃ L1 m,
    import_module
      (django_settings (Ok (<["django_redis" := PStr "default"]> ∅)) (PStr "k"))
      (linux (Ok 8) None (Ok 0) (Some 1) true) std_logging ∅ = (L1, Ok m)
    ∧ get_redis_client (module_Conf m) (linux (Ok 8) None (Ok 0) (Some 1) true)
      = Ok (module_redis_client m).
Proof.
  eexists _, _. split; [vm_compute; reflexivity|].
  refine (proj1 (proj2 (import_module_result
            (django_settings (Ok (<["django_redis" := PStr "default"]> ∅)) (PStr "k"))
            (linux (Ok 8) None (Ok 0) (Some 1) true) std_logging ∅ _ _ _))).
  vm_compute. reflexivity.
Defined.

(** X17. A [LOG_LEVEL] that is not a name defined by [logging] stops the
    import although the configuration itself resolved, when the logger has
    no handler yet: with [AttributeError] for a string, with [TypeError] for
    any other value.  The logger stays registered, without a handler, and no
    client is made. *)
Theorem import_module_bad_log_level (settings : Settings) (h : Platform)
    (lib : Logging) (L : gmap string Logger) (c : Conf) :
  Conf_class settings h = Ok c →
  logger_handlers (default new_Logger (L !! "django-q")) = [] →
  (∀ n, LOG_LEVEL c = PStr n → attr_lookup (logging_names lib) n = None) →
  import_module settings h lib L =
    ((getLogger "django-q" L).1,
     Raise (match LOG_LEVEL c with PStr _ => AttributeError | _ => TypeError end))
  ∧ ∃ lg, (getLogger "django-q" L).1 !! "django-q" = Some lg
          ∧ logger_handlers lg = [].
Proof.
  intros Hc Hh Hn. unfold import_module. rewrite Hc.
  rewrite setup_logger_unconfigured by done. split.
  - destruct (LOG_LEVEL c) as [| | |n| |] eqn:E; cbn; try done.
    unfold getattr. by rewrite (Hn n eq_refl).
  - destruct (getLogger_lookup "django-q" L) as (H1 & H2 & _).
    eexists. split; [exact H1 | by rewrite H2].
Qed.

Lemma import_module_bad_log_level_witness :
  (import_module
     (django_settings (Ok (<["log_level" := PStr "VERBOSE"]> ∅)) (PStr "k"))
     plain_linux std_logging ∅).2
  = Raise AttributeError.
Proof.
  refine (f_equal snd (proj1 (import_module_bad_log_level
            (django_settings (Ok (<["log_level" := PStr "VERBOSE"]> ∅)) (PStr "k"))
            plain_linux std_logging ∅
            (assemble plain_linux (<["log_level" := PStr "VERBOSE"]> ∅) (PInt 8)
               (PStr "k") true [])
            _ eq_refl _))).
  - vm_compute. reflexivity.
  - intros n Hn. vm_compute in Hn. injection Hn as <-. reflexivity.
Defined.

(** X18. What a failed import leaves behind.  When the class body raises,
    no logger has been looked up or changed.  When the class body and the
    logger block succeed and [REDIS] is not a mapping on the direct path,
    the import raises [TypeError], and the handler that was attached
    stays. *)
Theorem import_module_failures (settings : Settings) (h : Platform) (lib : Logging)
    (L : gmap string Logger) :
  (∀ e, Conf_class settings h = Raise e →
        import_module settings h lib L = (L, Raise e))
  ∧ (∀ c L1, Conf_class settings h = Ok c → setup_logger lib c L = (L1, Ok ()) →
       (∀ kwargs, REDIS c ≠ PDict kwargs) →
       truthy (DJANGO_REDIS c) = false ∨ django_redis_importable h = false →
       import_module settings h lib L = (L1, Raise TypeError)).
Proof.
  unfold import_module. split.
  - by intros e ->.
  - intros c L1 -> -> Hr Hd.
    assert (get_redis_client c h = Raise TypeError) as ->
      by (unfold get_redis_client, django_redis, call_StrictRedis;
          destruct (truthy (DJANGO_REDIS c)), (django_redis_importable h), (REDIS c)
            as [| | | |d|];
          cbn; try done; try (by destruct Hd); by specialize (Hr d)).
    done.
Qed.

Lemma import_module_failures_witness :
  import_module
    {| settings_Q_CLUSTER := Ok ∅; settings_SECRET_KEY := Raise AttributeError |}
    plain_linux std_logging ∅
  = (∅, Raise AttributeError).
Proof.
  apply (proj1 (import_module_failures
                  {| settings_Q_CLUSTER := Ok ∅;
                     settings_SECRET_KEY := Raise AttributeError |}
                  plain_linux std_logging ∅)).
  vm_compute. reflexivity.
Defined.

(** X19. Without the keys ['redis'] and ['django_redis'] in the settings, a
    successful import has made the direct client with no options, and the
    global [django_redis] was never bound, on every platform, with
    [django_redis] installed or not. *)
Theorem import_module_default_client (settings : Settings) (h : Platform)
    (lib : Logging) (L L1 : gmap string Logger) (m : ConfModule) :
  import_module settings h lib L = (L1, Ok m) →
  conf (module_Conf m) !! "redis" = None →
  conf (module_Conf m) !! "django_redis" = None →
  module_redis_client m = StrictRedis ∅ ∧ module_django_redis m = Unbound.
Proof.
  intros (c & cl & Hc & _ & Hcl & ->)%import_module_Ok. cbn.
  apply Conf_class_Ok in Hc as (cf & w & k & q & sn & _ & _ & _ & _ & _ & ->).
  cbn. intros Hr Hd. unfold get_redis_client, django_redis in *. cbn in *.
  rewrite (dict_get_None _ _ _ Hd) in *. rewrite (dict_get_None _ _ _ Hr) in Hcl.
  cbn in Hcl. by injection Hcl as <-.
Qed.

Lemma import_module_default_client_witness :
  ∃ L1 m,
    import_module (django_settings (Raise AttributeError) (PStr "k"))
      (linux (Ok 8) None (Ok 0) (Some 1) true) std_logging ∅ = (L1, Ok m)
    ∧ module_redis_client m = StrictRedis ∅ ∧ module_django_redis m = Unbound.
Proof.
  eexists _, _. split; [vm_compute; reflexivity|].
  refine (import_module_default_client
            (django_settings (Raise AttributeError) (PStr "k"))
            (linux (Ok 8) None (Ok 0) (Some 1) true) std_logging ∅ _ _ _ _ _);
    vm_compute; reflexivity.
Defined.

Lemma setup_logger_LOG_LEVEL lib a b L :
  LOG_LEVEL a = LOG_LEVEL b → setup_logger lib a L = setup_logger lib b L.
Proof. unfold setup_logger. by intros ->. Qed.

Lemma get_redis_client_agree a b h :
  REDIS a = REDIS b → DJANGO_REDIS a = DJANGO_REDIS b →
  get_redis_client a h = get_redis_client b h ∧ django_redis a h = django_redis b h.
Proof. unfold get_redis_client, django_redis. by intros -> ->. Qed.

(** X20. What the import does to the loggers, which client it makes and
    how it binds [django_redis] depend on four keys of the settings only:
    ['workers'], ['log_level'], ['redis'] and ['django_redis'].  Two
    mappings that agree on these give the same loggers, the same client and
    the same binding, or the same exception. *)
Theorem import_module_depends_on_four_keys (h : Platform) (lib : Logging)
    (L : gmap string Logger) (cf1 cf2 : gmap string pyval) (secret : result pyval) :
  (∀ key, key ∈ ["workers"; "log_level"; "redis"; "django_redis"] →
          cf1 !! key = cf2 !! key) →
  (import_module {| settings_Q_CLUSTER := Ok cf1; settings_SECRET_KEY := secret |}
     h lib L).1
  = (import_module {| settings_Q_CLUSTER := Ok cf2; settings_SECRET_KEY := secret |}
       h lib L).1
  ∧ (λ m, (module_redis_client m, module_django_redis m)) <$>
      (import_module {| settings_Q_CLUSTER := Ok cf1; settings_SECRET_KEY := secret |}
         h lib L).2
    = (λ m, (module_redis_client m, module_django_redis m)) <$>
        (import_module {| settings_Q_CLUSTER := Ok cf2; settings_SECRET_KEY := secret |}
           h lib L).2.
Proof.
  intros H.
  assert (Hw : cf1 !! "workers" = cf2 !! "workers")
    by (apply H; repeat first [apply list_elem_of_here | apply list_elem_of_further]).
  assert (Hl : cf1 !! "log_level" = cf2 !! "log_level")
    by (apply H; repeat first [apply list_elem_of_here | apply list_elem_of_further]).
  assert (Hr : cf1 !! "redis" = cf2 !! "redis")
    by (apply H; repeat first [apply list_elem_of_here | apply list_elem_of_further]).
  assert (Hd : cf1 !! "django_redis" = cf2 !! "django_redis")
    by (apply H; repeat first [apply list_elem_of_here | apply list_elem_of_further]).
  unfold import_module. rewrite !Conf_class_steps. cbn.
  rewrite (resolve_WORKERS_agree cf1 cf2 h Hw).
  destruct (resolve_WORKERS cf2 h) as [w|]; [|done]. cbn.
  destruct secret as [k|]; [|done]. cbn.
  destruct (probe_QSIZE h) as [q|]; [|done]. cbn.
  destruct (build_SIGNAL_NAMES (signal h)) as [sn|]; [|done]. cbn.
  rewrite (setup_logger_LOG_LEVEL lib (assemble h cf1 w k q sn)
             (assemble h cf2 w k q sn) L)
    by (cbn; by apply dict_get_agree).
  destruct (setup_logger lib (assemble h cf2 w k q sn) L) as [L1 [[]|]]; [|done].
  destruct (get_redis_client_agree (assemble h cf1 w k q sn)
              (assemble h cf2 w k q sn) h) as [-> ->];
    [cbn; by apply dict_get_agree | cbn; by apply dict_get_agree |].
  split; [done|]. by destruct (get_redis_client (assemble h cf2 w k q sn) h).
Qed.

Lemma import_module_depends_on_four_keys_witness :
  (import_module
     (django_settings (Ok (<["name" := PStr "site2"]> ∅)) (PStr "k"))
     plain_linux std_logging ∅).1
  = (import_module (django_settings (Ok ∅) (PStr "k")) plain_linux std_logging ∅).1.
Proof.
  refine (proj1 (import_module_depends_on_four_keys plain_linux std_logging ∅
                   (<["name" := PStr "site2"]> ∅) ∅ (Ok (PStr "k")) _)).
  intros key Hin. apply lookup_insert_ne. intros <-.
  repeat (apply elem_of_cons in Hin as [Hin | Hin]; [discriminate|]).
  by apply elem_of_nil in Hin.
Defined.
